(** * AddItemForm: the inventory item entry form of RoomMate

    A shallow embedding of
    [roommate-app/src/components/inventory/AddItemForm.tsx]: the
    component's React state as a record, its event handlers as state
    transformers that also log the calls made to the outside world
    (toasts, the creation service, the parent's callbacks), and the
    rendering as pure projections of the state. *)

From Stdlib Require Import List NArith ZArith Bool String Ascii Lia.
Import ListNotations.

(** * The JavaScript built-ins the component uses *)

Module JS.

(** A JavaScript string is a sequence of UTF-16 code units. *)
Definition code_unit := N.
Definition jsstring := list code_unit.

(** An ASCII literal of the source, as a JavaScript string. *)
Definition lit (s : string) : jsstring :=
  map N_of_ascii (list_ascii_of_string s).

(** ECMAScript [WhiteSpace] and [LineTerminator]; together they are the
    code units that [trim] and [parseInt] strip. *)
Definition isWhiteSpace (c : code_unit) : bool :=
  ((c =? 0x9) || (c =? 0xB) || (c =? 0xC) || (c =? 0x20) || (c =? 0xA0)
   || (c =? 0x1680) || ((0x2000 <=? c) && (c <=? 0x200A))
   || (c =? 0x202F) || (c =? 0x205F) || (c =? 0x3000) || (c =? 0xFEFF))%N.

Definition isLineTerminator (c : code_unit) : bool :=
  ((c =? 0xA) || (c =? 0xD) || (c =? 0x2028) || (c =? 0x2029))%N.

Definition isStrWhiteSpaceChar (c : code_unit) : bool :=
  isWhiteSpace c || isLineTerminator c.

Fixpoint trimStart (s : jsstring) : jsstring :=
  match s with
  | [] => []
  | c :: s' => if isStrWhiteSpaceChar c then trimStart s' else s
  end.

Definition trimEnd (s : jsstring) : jsstring := rev (trimStart (rev s)).

(** [String.prototype.trim] *)
Definition trim (s : jsstring) : jsstring := trimEnd (trimStart s).

Fixpoint startsWith (s search : jsstring) : bool :=
  match search, s with
  | [], _ => true
  | _ :: _, [] => false
  | d :: search', c :: s' => (c =? d)%N && startsWith s' search'
  end.

(** [String.prototype.includes]: [search] occurs in [s] as a substring. *)
Fixpoint includes (s search : jsstring) : bool :=
  startsWith s search
  || match s with
     | [] => false
     | _ :: s' => includes s' search
     end.

(** A Number, as far as this component produces one: [NaN], or the
    integer that [parseInt] read.  ECMAScript rounds that integer to a
    binary64 value (to [Infinity] when it is too large for one); the
    rounding keeps the sign, keeps zero, and leaves
    every integer of magnitude up to 2^53 as it is, so the comparisons
    against [0] below do not depend on it.  [-0] is [Num 0]: it compares
    like [0]. *)
Inductive number : Type :=
| NaN
| Num (z : Z).

(** The relational operators; a comparison with [NaN] is [false]. *)
Definition num_lt (a : number) (b : Z) : bool :=
  match a with NaN => false | Num z => (z <? b)%Z end.
Definition num_le (a : number) (b : Z) : bool :=
  match a with NaN => false | Num z => (z <=? b)%Z end.
Definition num_gt (a : number) (b : Z) : bool :=
  match a with NaN => false | Num z => (b <? z)%Z end.
Definition num_ge (a : number) (b : Z) : bool :=
  match a with NaN => false | Num z => (b <=? z)%Z end.

(** The value of a code unit as a digit: [0-9], then [a-z] and [A-Z]
    for 10 to 35. *)
Definition digitValue (c : code_unit) : option Z :=
  if ((48 <=? c) && (c <=? 57))%N then Some (Z.of_N (c - 48))
  else if ((97 <=? c) && (c <=? 122))%N then Some (Z.of_N (c - 97) + 10)%Z
  else if ((65 <=? c) && (c <=? 90))%N then Some (Z.of_N (c - 65) + 10)%Z
  else None.

Definition radixDigit (R : Z) (c : code_unit) : option Z :=
  match digitValue c with
  | Some d => if (d <? R)%Z then Some d else None
  | None => None
  end.

(** The digits of the longest prefix of [s] made of radix-[R] digits. *)
Fixpoint digitPrefix (R : Z) (s : jsstring) : list Z :=
  match s with
  | [] => []
  | c :: s' =>
      match radixDigit R c with
      | Some d => d :: digitPrefix R s'
      | None => []
      end
  end.

Definition mathInt (R : Z) (ds : list Z) : Z :=
  fold_left (fun acc d => acc * R + d)%Z ds 0%Z.

(** [parseInt(input)] with no radix argument (ECMAScript 19.2.5):
    leading white space is skipped, a sign is read, a [0x] or [0X]
    prefix selects radix 16, otherwise the radix is 10; the longest
    prefix of digits is the value and anything after it is ignored;
    with no digit at all the result is [NaN]. *)
Definition parseInt (input : jsstring) : number :=
  let s1 := trimStart input in
  let sign :=
    match s1 with
    | c :: _ => if (c =? 45)%N then (-1)%Z else 1%Z
    | [] => 1%Z
    end in
  let s2 :=
    match s1 with
    | c :: rest => if ((c =? 43) || (c =? 45))%N then rest else s1
    | [] => s1
    end in
  let '(R, s3) :=
    match s2 with
    | c0 :: c1 :: rest =>
        if ((c0 =? 48) && ((c1 =? 120) || (c1 =? 88)))%N
        then (16%Z, rest) else (10%Z, s2)
    | _ => (10%Z, s2)
    end in
  match digitPrefix R s3 with
  | [] => NaN
  | ds => Num (sign * mathInt R ds)
  end.

(** The values that the component's [&&] chains and its state setters
    produce. *)
Inductive jsval : Type :=
| VUndefined
| VBool (b : bool)
| VString (s : jsstring)
| VNumber (n : number).

(** [ToBoolean] *)
Definition truthy (v : jsval) : bool :=
  match v with
  | VUndefined => false
  | VBool b => b
  | VString s => match s with [] => false | _ :: _ => true end
  | VNumber NaN => false
  | VNumber (Num z) => negb (z =? 0)%Z
  end.

(** [a && b] on expressions without effects. *)
Definition js_and (a b : jsval) : jsval := if truthy a then b else a.

(** [!a] *)
Definition js_not (a : jsval) : bool := negb (truthy a).

(** [String.prototype.toLowerCase] on strings of Basic Latin code units:
    [A-Z] go to [a-z], every other code unit below 128 is kept.  The
    form is stated over an arbitrary [toLowerCase]; this one runs the
    examples, whose strings are all Basic Latin. *)
Definition asciiLowerCase (s : jsstring) : jsstring :=
  map (fun c => if ((65 <=? c) && (c <=? 90))%N then (c + 32)%N else c) s.

End JS.

Import JS.

Declare Scope js_scope.
Delimit Scope js_scope with js.
Notation "a &&& b" := (js_and a b) (at level 40, left associativity) : js_scope.

(** * The component's data *)

(** [errors]: one message per field, the empty string when the field
    has no error. *)
Module Errors.
Record t : Type := make { name : jsstring; quantity : jsstring; threshold : jsstring }.
Definition with_name (v : jsstring) (prev : t) : t := make v (quantity prev) (threshold prev).
Definition with_quantity (v : jsstring) (prev : t) : t := make (name prev) v (threshold prev).
Definition with_threshold (v : jsstring) (prev : t) : t := make (name prev) (quantity prev) v.
End Errors.

(** [touched]: one flag per field. *)
Module Touched.
Record t : Type := make { name : bool; quantity : bool; threshold : bool }.
Definition with_name (v : bool) (prev : t) : t := make v (quantity prev) (threshold prev).
Definition with_quantity (v : bool) (prev : t) : t := make (name prev) v (threshold prev).
Definition with_threshold (v : bool) (prev : t) : t := make (name prev) (quantity prev) v.
End Touched.

(** The argument of [createInventoryItem]. *)
Module Payload.
Record t : Type := make {
  name : jsstring;
  quantity : number;
  lowThreshold : number;
  householdId : jsstring
}.
End Payload.

(** What [useHousehold] gives as [selectedHousehold] when a household
    is selected; [None] stands for the absent selection. *)
Record Household : Type := { key : jsstring }.

(** The state held by the [useState] hooks. *)
Record State : Type := mkState {
  name : jsstring;
  quantity : jsstring;
  lowThreshold : jsstring;
  errors : Errors.t;
  touched : Touched.t;
  suggestions : list jsstring;
  showSuggestions : bool;
  isLoading : bool
}.

(** The state of the first render. *)
Definition initial : State :=
  mkState [] [] [] (Errors.make [] [] []) (Touched.make false false false) [] false false.

Definition COMMON_ITEMS : list jsstring :=
  map lit ["Milk"; "Bread"; "Eggs"; "Rice"; "Pasta"; "Chicken"; "Tomatoes";
           "Onions"; "Potatoes"; "Cheese"]%string.

(** The three inline messages; the sign in the second one is U+2265. *)
Definition name_required : jsstring := lit "Item name is required.".
Definition quantity_invalid : jsstring := lit "Quantity must be " ++ [0x2265%N] ++ lit " 0.".
Definition threshold_invalid : jsstring := lit "Threshold must be > 0.".

(** A value caught by [catch]. *)
Inductive error : Type := Error (message : jsstring).

(** The callback given to [setTimeout] on blur. *)
Inductive callback : Type := hideSuggestions.

(** The calls a handler makes to the world outside the component. *)
Inductive effect : Type :=
| preventDefault
| focus_nameInput
| toast_error (message : jsstring)
| toast_success (message : jsstring)
| createInventoryItem (item : Payload.t)
| onSuccess
| onCancel
| console_error (message : jsstring) (reason : error)
| setTimeout (cb : callback) (delay : N).

(** * Handlers

    A handler runs against the pending state: each setter updates it
    and returns [undefined]; the calls to the outside are logged in
    order.  What a handler reads ([name], [touched.name], ...) are the
    values of the render whose closure it is, passed as [render]. *)
Definition Handler (A : Type) : Type := State -> A * State * list effect.

Definition ret {A} (a : A) : Handler A := fun st => (a, st, []).

Definition bind {A B} (h : Handler A) (k : A -> Handler B) : Handler B :=
  fun st =>
    let '(a, st1, l1) := h st in
    let '(b, st2, l2) := k a st1 in
    (b, st2, l1 ++ l2).

Declare Scope handler_scope.
Delimit Scope handler_scope with handler.
Notation "x <- h ;; k" := (bind h (fun x => k))
  (at level 61, h at next level, right associativity) : handler_scope.
Notation "h ;; k" := (bind h (fun _ => k))
  (at level 61, right associativity) : handler_scope.
Local Open Scope handler_scope.

Definition emit (e : effect) : Handler jsval := fun st => (VUndefined, st, [e]).

Definition skip : Handler jsval := ret VUndefined.

(** [a && b] where the operands may call setters. *)
Definition andM (a b : Handler jsval) : Handler jsval :=
  v <- a ;; if truthy v then b else ret v.

Definition setName (v : jsstring) : Handler jsval := fun st =>
  (VUndefined,
   mkState v (quantity st) (lowThreshold st) (errors st) (touched st)
           (suggestions st) (showSuggestions st) (isLoading st), []).

Definition setQuantity (v : jsstring) : Handler jsval := fun st =>
  (VUndefined,
   mkState (name st) v (lowThreshold st) (errors st) (touched st)
           (suggestions st) (showSuggestions st) (isLoading st), []).

Definition setLowThreshold (v : jsstring) : Handler jsval := fun st =>
  (VUndefined,
   mkState (name st) (quantity st) v (errors st) (touched st)
           (suggestions st) (showSuggestions st) (isLoading st), []).

(** [setErrors] and [setTouched] take an updater; a plain value [v] is
    the updater [fun _ => v]. *)
Definition setErrors (f : Errors.t -> Errors.t) : Handler jsval := fun st =>
  (VUndefined,
   mkState (name st) (quantity st) (lowThreshold st) (f (errors st)) (touched st)
           (suggestions st) (showSuggestions st) (isLoading st), []).

Definition setTouched (f : Touched.t -> Touched.t) : Handler jsval := fun st =>
  (VUndefined,
   mkState (name st) (quantity st) (lowThreshold st) (errors st) (f (touched st))
           (suggestions st) (showSuggestions st) (isLoading st), []).

Definition setSuggestions (v : list jsstring) : Handler jsval := fun st =>
  (VUndefined,
   mkState (name st) (quantity st) (lowThreshold st) (errors st) (touched st)
           v (showSuggestions st) (isLoading st), []).

Definition setShowSuggestions (v : bool) : Handler jsval := fun st =>
  (VUndefined,
   mkState (name st) (quantity st) (lowThreshold st) (errors st) (touched st)
           (suggestions st) v (isLoading st), []).

Definition setIsLoading (v : bool) : Handler jsval := fun st =>
  (VUndefined,
   mkState (name st) (quantity st) (lowThreshold st) (errors st) (touched st)
           (suggestions st) (showSuggestions st) v, []).

(** A handler run as the closure of the render of [st]. *)
Definition run {A} (h : State -> Handler A) (st : State) : A * State * list effect :=
  h st st.

(** What a handler returned, the state it left, the calls it made. *)
Definition value_of {A} (r : A * State * list effect) : A := fst (fst r).
Definition state_of {A} (r : A * State * list effect) : State := snd (fst r).
Definition effects_of {A} (r : A * State * list effect) : list effect := snd r.

Section AddItemForm.

(** [String.prototype.toLowerCase], taken as it is: the form only
    passes strings through it. *)
Variable toLowerCase : jsstring -> jsstring.

(** [COMMON_ITEMS.filter(item => item.toLowerCase().includes(value.toLowerCase()))] *)
Definition matching (value : jsstring) : list jsstring :=
  filter (fun item => includes (toLowerCase item) (toLowerCase value)) COMMON_ITEMS.

Definition validate (render : State) : Handler bool :=
  let newErrors := Errors.make [] [] [] in
  let newErrors :=
    if js_not (VString (trim (name render)))
    then Errors.with_name name_required newErrors else newErrors in
  let newErrors :=
    if js_not (VString (quantity render)) || num_lt (parseInt (quantity render)) 0
    then Errors.with_quantity quantity_invalid newErrors else newErrors in
  let newErrors :=
    if js_not (VString (lowThreshold render)) || num_le (parseInt (lowThreshold render)) 0
    then Errors.with_threshold threshold_invalid newErrors else newErrors in
  setErrors (fun _ => newErrors) ;;
  ret (js_not (VString (Errors.name newErrors))
       && js_not (VString (Errors.quantity newErrors))
       && js_not (VString (Errors.threshold newErrors))).

Definition handleNameChange (value : jsstring) (render : State) : Handler jsval :=
  setName value ;;
  (if (0 <? List.length value)%nat
   then
     let filtered := matching value in
     setSuggestions filtered ;;
     setShowSuggestions (0 <? List.length filtered)%nat
   else setShowSuggestions false) ;;
  if Touched.name (touched render)
  then setErrors (Errors.with_name
                    (if truthy (VString (trim value)) then [] else name_required))
  else skip.

(** Where [handleSubmit] stands when it gives control back: it has
    returned, or it waits at the [await] for [createInventoryItem]. *)
Inductive suspension : Type :=
| Returned
| Awaiting.

(** [handleSubmit], up to its [await]. *)
Definition handleSubmit (selectedHousehold : option Household) (render : State)
  : Handler suspension :=
  emit preventDefault ;;
  setTouched (fun _ => Touched.make true true true) ;;
  ok <- validate render ;;
  if negb ok then ret Returned
  else
    match selectedHousehold with
    | None =>
        emit (toast_error (lit "Please select a household first")) ;;
        ret Returned
    | Some household =>
        setIsLoading true ;;
        emit (createInventoryItem
                (Payload.make (name render)
                              (parseInt (quantity render))
                              (parseInt (lowThreshold render))
                              (key household))) ;;
        ret Awaiting
    end.

(** How the promise of [createInventoryItem] settles. *)
Inductive settled : Type :=
| Fulfilled
| Rejected (reason : error).

(** How a block ends: normally, or by throwing. *)
Inductive completion : Type :=
| Normal
| Throw (reason : error).

(** [try { body } catch (error) { handler } finally { final }], for a
    [handler] and a [final] that do not throw themselves. *)
Definition try_catch_finally
    (body : Handler completion) (handler : error -> Handler jsval)
    (final : Handler jsval) : Handler completion :=
  r <- body ;;
  match r with
  | Normal => skip
  | Throw reason => handler reason
  end ;;
  final ;;
  ret Normal.

(** [handleSubmit] from its [await] on: the rest of the [try] block, the
    [catch] and the [finally].  The result is how the whole call ends.
    [toast], [console.error] and the parent's [onSuccess] are taken to
    return. *)
Definition handleSubmit_resume (outcome : settled) : Handler completion :=
  try_catch_finally
    (match outcome with
     | Rejected reason => ret (Throw reason)
     | Fulfilled =>
         emit (toast_success (lit "Item added successfully")) ;;
         emit onSuccess ;;
         ret Normal
     end)
    (fun reason =>
       emit (console_error (lit "APP:: AddItemForm:: Failed to add item:") reason) ;;
       emit (toast_error (lit "Failed to add item")))
    (setIsLoading false).

(** The handlers written inline in the JSX. *)
Definition name_onBlur (render : State) : Handler jsval :=
  setTouched (Touched.with_name true) ;;
  emit (setTimeout hideSuggestions 200).

(** [name && setSuggestions(...) && setShowSuggestions(true)] *)
Definition name_onFocus (render : State) : Handler jsval :=
  andM (andM (ret (VString (name render)))
             (setSuggestions (matching (name render))))
       (setShowSuggestions true).

Definition suggestion_onClick (item : jsstring) (render : State) : Handler jsval :=
  setName item ;;
  setShowSuggestions false.

Definition quantity_onChange (value : jsstring) (render : State) : Handler jsval :=
  setQuantity value ;;
  if Touched.quantity (touched render)
  then setErrors (Errors.with_quantity
                    (if truthy (VString value &&& VBool (num_ge (parseInt value) 0))%js
                     then [] else quantity_invalid))
  else skip.

Definition quantity_onBlur (render : State) : Handler jsval :=
  setTouched (Touched.with_quantity true).

Definition threshold_onChange (value : jsstring) (render : State) : Handler jsval :=
  setLowThreshold value ;;
  if Touched.threshold (touched render)
  then setErrors (Errors.with_threshold
                    (if truthy (VString value &&& VBool (num_gt (parseInt value) 0))%js
                     then [] else threshold_invalid))
  else skip.

Definition threshold_onBlur (render : State) : Handler jsval :=
  setTouched (Touched.with_threshold true).

(** The callback of the blur timer. *)
Definition timer_fires (cb : callback) (render : State) : Handler jsval :=
  match cb with
  | hideSuggestions => setShowSuggestions false
  end.

(** The [keydown] listener on [window]. *)
Definition handleKeyDown (e_key : jsstring) (render : State) : Handler jsval :=
  if list_eq_dec N.eq_dec e_key (lit "Escape") then emit onCancel else skip.

Definition cancel_onClick (render : State) : Handler jsval := emit onCancel.

(** The first effect hook. *)
Definition on_mount (render : State) : Handler jsval := emit focus_nameInput.

(** * Rendering *)

Definition isValid (st : State) : jsval :=
  (VString (trim (name st))
   &&& VString (quantity st)
   &&& VBool (num_ge (parseInt (quantity st)) 0)
   &&& VString (lowThreshold st)
   &&& VBool (num_gt (parseInt (lowThreshold st)) 0))%js.

(** The [disabled] attribute of the submit button. *)
Definition submit_disabled (st : State) : bool :=
  js_not (isValid st) || isLoading st.

Definition submit_enabled (st : State) : bool := negb (submit_disabled st).

Inductive field : Type := name_field | quantity_field | threshold_field.

Definition error_of (f : field) (st : State) : jsstring :=
  match f with
  | name_field => Errors.name (errors st)
  | quantity_field => Errors.quantity (errors st)
  | threshold_field => Errors.threshold (errors st)
  end.

Definition touched_of (f : field) (st : State) : bool :=
  match f with
  | name_field => Touched.name (touched st)
  | quantity_field => Touched.quantity (touched st)
  | threshold_field => Touched.threshold (touched st)
  end.

(** [{errors.f && touched.f && <p>{errors.f}</p>}]: the text of the
    paragraph under field [f], when one is rendered. *)
Definition error_paragraph (f : field) (st : State) : option jsstring :=
  if truthy (VString (error_of f st) &&& VBool (touched_of f st))%js
  then Some (error_of f st) else None.

(** [{showSuggestions && suggestions.length > 0 && (...)}]: the entries
    of the suggestion panel, when it is rendered. *)
Definition suggestion_panel (st : State) : option (list jsstring) :=
  if showSuggestions st && (0 <? List.length (suggestions st))%nat
  then Some (suggestions st) else None.

(** * The form in its page

    The form together with what surrounds it: the household selection,
    the calls of [createInventoryItem] that have not settled yet, the
    timers that have not fired yet, and the calls made so far. *)
Record World : Type := mkWorld {
  form : State;
  selectedHousehold : option Household;
  pending : list Payload.t;
  timers : list callback;
  log : list effect
}.

(** What can happen to a mounted form. *)
Inductive event : Type :=
| name_change (value : jsstring)
| name_blur
| name_focus
| suggestion_click (item : jsstring)
| quantity_change (value : jsstring)
| quantity_blur
| threshold_change (value : jsstring)
| threshold_blur
| submit
| cancel_click
| key_down (e_key : jsstring)
| timer_fire
| settle (outcome : settled)
| household_change (selection : option Household).

Definition created (l : list effect) : list Payload.t :=
  flat_map (fun e => match e with createInventoryItem p => [p] | _ => [] end) l.

Definition timers_set (l : list effect) : list callback :=
  flat_map (fun e => match e with setTimeout cb _ => [cb] | _ => [] end) l.

(** Runs a handler of the current render and records what it did. *)
Definition dispatch {A} (h : State -> Handler A) (w : World) : World :=
  let '(_, st, l) := run h (form w) in
  mkWorld st (selectedHousehold w) (pending w ++ created l)
          (timers w ++ timers_set l) (log w ++ l).

(** The world after an event, or [None] when the page does not offer
    the event: a suggestion can be clicked only while the panel shows
    it, the form can be submitted by the user only while the submit
    button is enabled, a timer fires only once set, and a call settles
    only while it is pending. *)
Definition fire (e : event) (w : World) : option World :=
  match e with
  | name_change value => Some (dispatch (handleNameChange value) w)
  | name_blur => Some (dispatch name_onBlur w)
  | name_focus => Some (dispatch name_onFocus w)
  | suggestion_click item =>
      match suggestion_panel (form w) with
      | Some items =>
          if existsb (fun i => if list_eq_dec N.eq_dec i item then true else false) items
          then Some (dispatch (suggestion_onClick item) w) else None
      | None => None
      end
  | quantity_change value => Some (dispatch (quantity_onChange value) w)
  | quantity_blur => Some (dispatch quantity_onBlur w)
  | threshold_change value => Some (dispatch (threshold_onChange value) w)
  | threshold_blur => Some (dispatch threshold_onBlur w)
  | submit =>
      if submit_enabled (form w)
      then Some (dispatch (handleSubmit (selectedHousehold w)) w) else None
  | cancel_click => Some (dispatch cancel_onClick w)
  | key_down e_key => Some (dispatch (handleKeyDown e_key) w)
  | timer_fire =>
      match timers w with
      | cb :: rest =>
          let w' := dispatch (timer_fires cb) w in
          Some (mkWorld (form w') (selectedHousehold w') (pending w') rest (log w'))
      | [] => None
      end
  | settle outcome =>
      match pending w with
      | _ :: rest =>
          let w' := dispatch (fun _ => handleSubmit_resume outcome) w in
          Some (mkWorld (form w') (selectedHousehold w') rest (timers w') (log w'))
      | [] => None
      end
  | household_change selection =>
      Some (mkWorld (form w) selection (pending w) (timers w) (log w))
  end.

(** The page right after the form is mounted. *)
Definition mounted (selection : option Household) : World :=
  dispatch on_mount (mkWorld initial selection [] [] []).

Inductive reachable : World -> Prop :=
| reachable_mounted selection : reachable (mounted selection)
| reachable_fire w e w' : reachable w -> fire e w = Some w' -> reachable w'.

(** The world after a list of events, [None] if one is not offered. *)
Fixpoint fire_all (es : list event) (w : World) : option World :=
  match es with
  | [] => Some w
  | e :: es' =>
      match fire e w with
      | Some w' => fire_all es' w'
      | None => None
      end
  end.

End AddItemForm.

(** * The words of the specification *)

Definition isDecimalDigit (c : code_unit) : bool := ((48 <=? c) && (c <=? 57))%N.

Definition decimal_value (s : jsstring) : Z :=
  fold_left (fun acc c => acc * 10 + Z.of_N (c - 48))%Z s 0%Z.

(** "A non-negative integer string": one decimal digit or more. *)
Definition nonneg_integer_string (s : jsstring) : bool :=
  (0 <? List.length s)%nat && forallb isDecimalDigit s.

(** "A positive integer string": such a string, of a value above zero. *)
Definition positive_integer_string (s : jsstring) : bool :=
  nonneg_integer_string s && (0 <? decimal_value s)%Z.

Definition count_onSuccess (l : list effect) : nat :=
  List.length (filter (fun e => match e with onSuccess => true | _ => false end) l).

(** * States and event lists used below *)

Definition no_errors : Errors.t := Errors.make [] [] [].
Definition untouched : Touched.t := Touched.make false false false.
Definition all_touched : Touched.t := Touched.make true true true.

(** Household H1. *)
Definition H1 : Household := {| key := lit "H1" |}.

(** Milk, 2 and 1 filled in. *)
Definition milk : State :=
  mkState (lit "Milk") (lit "2") (lit "1") no_errors untouched [] false false.

(** The same while a submission is in flight. *)
Definition milk_loading : State :=
  mkState (lit "Milk") (lit "2") (lit "1") no_errors all_touched [] false true.

(** A quantity with a fraction. *)
Definition milk_fraction : State :=
  mkState (lit "Milk") (lit "2.5") (lit "1") no_errors untouched [] false false.

(** A name of two spaces, the rest filled in. *)
Definition blank_name : State :=
  mkState (lit "  ") (lit "2") (lit "1") no_errors untouched [] false false.

(** Quantities and thresholds that [parseInt] reads as [NaN]: letters,
    a blank, and [.5], which a number input does hand over. *)
Definition quantity_abc : State :=
  mkState (lit "Milk") (lit "abc") (lit "1") no_errors untouched [] false false.
Definition quantity_blank : State :=
  mkState (lit "Milk") (lit " ") (lit "1") no_errors untouched [] false false.
Definition quantity_point_five : State :=
  mkState (lit "Milk") (lit ".5") (lit "1") no_errors untouched [] false false.
Definition threshold_abc : State :=
  mkState (lit "Milk") (lit "2") (lit "abc") no_errors untouched [] false false.
Definition threshold_blank : State :=
  mkState (lit "Milk") (lit "2") (lit " ") no_errors untouched [] false false.
Definition threshold_point_five : State :=
  mkState (lit "Milk") (lit "2") (lit ".5") no_errors untouched [] false false.

(** The quantity field is left, [.5] is typed into it, then the name
    and the threshold are typed. *)
Definition typing_stale_quantity : list event :=
  [quantity_blur; quantity_change (lit ".5"); name_change (lit "Milk");
   threshold_change (lit "1")].

(** Where that leads: the change handler has set the quantity message. *)
Definition stale_quantity : State :=
  mkState (lit "Milk") (lit ".5") (lit "1")
          (Errors.make [] quantity_invalid [])
          (Touched.make false true false)
          [lit "Milk"] true false.

(** Mi typed, the field left, the blur timer fired, the field entered
    again. *)
Definition refocus_Mi : list event :=
  [name_change (lit "Mi"); name_blur; timer_fire; name_focus].

(** The form before that last focus, and after it too. *)
Definition Mi_hidden : State :=
  mkState (lit "Mi") [] [] no_errors (Touched.make true false false)
          [lit "Milk"] false false.

(** Mi typed and the field left; then the click on Milk and the blur
    timer, in either order. *)
Definition click_then_timer : list event :=
  [name_change (lit "Mi"); name_blur; suggestion_click (lit "Milk"); timer_fire].
Definition timer_then_click : list event :=
  [name_change (lit "Mi"); name_blur; timer_fire; suggestion_click (lit "Milk")].

(** Milk, 2 and 1 typed, then the form submitted. *)
Definition fill_and_submit : list event :=
  [name_change (lit "Milk"); quantity_change (lit "2"); threshold_change (lit "1");
   submit].

(** The same, and the call fulfilled. *)
Definition fill_submit_fulfil : list event := fill_and_submit ++ [settle Fulfilled].

(** A quantity typed, the field left, the quantity deleted. *)
Definition leave_quantity_empty : list event :=
  [quantity_change (lit "1"); quantity_blur; quantity_change (lit "")].

(** The page after a list of events from the mount, when each was
    offered. *)
Definition page_after (es : list event) (selection : option Household) : World :=
  match fire_all asciiLowerCase es (mounted selection) with
  | Some w => w
  | None => mounted selection
  end.

Definition milk_in_flight : World :=
  Eval vm_compute in page_after fill_and_submit (Some H1).

Definition quantity_left_empty : World :=
  Eval vm_compute in page_after leave_quantity_empty None.

(** The loading flag is up exactly while one call of the creation
    service is pending, and no more than one ever is. *)
Definition one_in_flight (w : World) : Prop :=
  (isLoading (form w) = true /\ exists item, pending w = [item])
  \/ (isLoading (form w) = false /\ pending w = []).

(** The message of each field. *)
Definition message_of (f : field) : jsstring :=
  match f with
  | name_field => name_required
  | quantity_field => quantity_invalid
  | threshold_field => threshold_invalid
  end.

(** What the creation service is told to expect: a name that is not
    blank, a quantity that is a number of at least 0, a threshold that
    is a number above 0. *)
Definition well_formed_item (item : Payload.t) : Prop :=
  trim (Payload.name item) <> []
  /\ (exists q, Payload.quantity item = Num q /\ (0 <= q)%Z)
  /\ (exists t, Payload.lowThreshold item = Num t /\ (0 < t)%Z).

(** The draft after an event: typing writes the field typed into, a
    click on a suggestion writes the name, nothing else writes. *)
Definition draft_after (e : event) (st : State) : jsstring * jsstring * jsstring :=
  match e with
  | name_change value => (value, quantity st, lowThreshold st)
  | suggestion_click item => (item, quantity st, lowThreshold st)
  | quantity_change value => (name st, value, lowThreshold st)
  | threshold_change value => (name st, quantity st, value)
  | _ => (name st, quantity st, lowThreshold st)
  end.

(** Mi typed into the mounted form, and Milk clicked then. *)
Definition Mi_typed : World :=
  Eval vm_compute in page_after [name_change (lit "Mi")] None.

Definition Milk_clicked : World :=
  Eval vm_compute in
    page_after [name_change (lit "Mi"); suggestion_click (lit "Milk")] None.

(** Milk, 2 and 1 typed, with household H1 selected. *)
Definition type_milk : list event :=
  [name_change (lit "Milk"); quantity_change (lit "2"); threshold_change (lit "1")].

Definition milk_typed : World :=
  Eval vm_compute in page_after type_milk (Some H1).

(** Milk, 2 and 1 typed, with no household selected. *)
Definition milk_typed_alone : World :=
  Eval vm_compute in page_after type_milk None.

(** Milk with a space on either side, 12 and 3. *)
Definition padded_milk : State :=
  mkState (lit " Milk ") (lit "12") (lit "3") no_errors untouched [] false false.

(** Every integer up to this magnitude, 2^53, is a binary64 value: up
    to it the Number that [parseInt] returns is the integer read, as
    it is. *)
Definition exact_integers : Z := 2 ^ 53.

(** The page after Milk, 2 and 1 were typed and the form submitted with
    no household selected. *)
Definition milk_alone_submitted : World :=
  Eval vm_compute in page_after fill_and_submit None.

(** Each error is empty or the message of its field. *)
Definition literal_errors (st : State) : Prop :=
  forall f, error_of f st = [] \/ error_of f st = message_of f.

(** A quantity or threshold error is set only on a touched field whose
    text fails the test of the submit button. *)
Definition numeric_errors_sound (st : State) : Prop :=
  (Touched.quantity (touched st) = false -> Errors.quantity (errors st) = [])
  /\ (Errors.quantity (errors st) <> [] ->
      truthy (VString (quantity st) &&& VBool (num_ge (parseInt (quantity st)) 0))%js
      = false)
  /\ (Touched.threshold (touched st) = false -> Errors.threshold (errors st) = [])
  /\ (Errors.threshold (errors st) <> [] ->
      truthy (VString (lowThreshold st)
              &&& VBool (num_gt (parseInt (lowThreshold st)) 0))%js
      = false).

(** The name error is set only on a touched name field that is blank,
    and not while the suggestion panel shows. *)
Definition name_error_sound (st : State) : Prop :=
  (Touched.name (touched st) = false -> Errors.name (errors st) = [])
  /\ (Errors.name (errors st) <> [] ->
      trim (name st) = [] /\ suggestion_panel st = None).

(** * Mounting and unmounting

    The two effect hooks over the life of the component.  The first,
    with no dependency, runs once per mount and focuses the name input.
    The second, which depends on [onCancel], adds a [keydown] listener
    to [window] and returns the cleanup that removes that same
    listener; React runs the cleanup before the effect runs again and
    when the component unmounts, and runs the effect again only when
    [onCancel] is another function than at the last run. *)
Module Lifecycle.

(** An [onCancel] function of the parent, by identity. *)
Definition prop := nat.

(** A [handleKeyDown] closure: the function object made by one run of
    the effect, and the [onCancel] it calls on Escape. *)
Record listener : Type := { id : nat; calls : prop }.

Record page : Type := mkPage {
  listeners : list listener;       (* the keydown listeners of window *)
  cleanup : option listener;       (* what the pending cleanup removes *)
  fresh : nat;                     (* function objects made so far *)
  focus_calls : nat                (* calls of nameInputRef.current.focus *)
}.

Definition start : page := mkPage [] None 0 0.

Inductive change : Type :=
| mount (cancel : prop)
| rerender (cancel : prop)
| unmount.

(** [window.addEventListener("keydown", handleKeyDown)], and the
    cleanup returned. *)
Definition run_effect (cancel : prop) (p : page) : page :=
  let handleKeyDown := {| id := fresh p; calls := cancel |} in
  mkPage (listeners p ++ [handleKeyDown]) (Some handleKeyDown) (S (fresh p))
         (focus_calls p).

(** [window.removeEventListener("keydown", handleKeyDown)] *)
Definition run_cleanup (handleKeyDown : listener) (p : page) : page :=
  mkPage (filter (fun l => negb (id l =? id handleKeyDown)%nat) (listeners p))
         None (fresh p) (focus_calls p).

Definition focus (p : page) : page :=
  mkPage (listeners p) (cleanup p) (fresh p) (S (focus_calls p)).

(** The page after a change, [None] when the change cannot occur: a
    component mounts only while not mounted, and renders again or
    unmounts only while mounted. *)
Definition apply (c : change) (p : page) : option page :=
  match c, cleanup p with
  | mount cancel, None => Some (run_effect cancel (focus p))
  | rerender cancel, Some handleKeyDown =>
      if (calls handleKeyDown =? cancel)%nat then Some p
      else Some (run_effect cancel (run_cleanup handleKeyDown p))
  | unmount, Some handleKeyDown => Some (run_cleanup handleKeyDown p)
  | _, _ => None
  end.

Fixpoint apply_all (cs : list change) (p : page) : option page :=
  match cs with
  | [] => Some p
  | c :: cs' =>
      match apply c p with
      | Some p' => apply_all cs' p'
      | None => None
      end
  end.

(** The [onCancel] functions that an Escape key press calls, in order. *)
Definition escape (p : page) : list prop := map calls (listeners p).

(** The [onCancel] of the last render, while mounted. *)
Fixpoint latest (acc : option prop) (cs : list change) : option prop :=
  match cs with
  | [] => acc
  | mount cancel :: cs' => latest (Some cancel) cs'
  | rerender cancel :: cs' => latest (Some cancel) cs'
  | unmount :: cs' => latest None cs'
  end.

Definition mounts (cs : list change) : nat :=
  List.length (filter (fun c => match c with mount _ => true | _ => false end) cs).

(** At most one listener is registered, the one the cleanup removes. *)
Definition tidy (p : page) : Prop :=
  listeners p = match cleanup p with Some l => [l] | None => [] end.

End Lifecycle.

(** * Built-ins *)

Lemma truthy_string : forall s, truthy (VString s) = true <-> s <> [].
Proof.
  intros [|c s]; simpl; split; intro H; try discriminate; try reflexivity.
  now elim H.
Qed.

Lemma num_ge_spec : forall n b,
  num_ge n b = true <-> exists z, n = Num z /\ (b <= z)%Z.
Proof.
  intros [|z] b; simpl; split.
  - discriminate.
  - intros (z & Hz & _); discriminate.
  - intro H; exists z; split; [reflexivity | now apply Z.leb_le].
  - intros (z' & Hz & Hle); injection Hz as <-; now apply Z.leb_le.
Qed.

Lemma num_gt_spec : forall n b,
  num_gt n b = true <-> exists z, n = Num z /\ (b < z)%Z.
Proof.
  intros [|z] b; simpl; split.
  - discriminate.
  - intros (z & Hz & _); discriminate.
  - intro H; exists z; split; [reflexivity | now apply Z.ltb_lt].
  - intros (z' & Hz & Hlt); injection Hz as <-; now apply Z.ltb_lt.
Qed.

Lemma truthy_js_and : forall a b, truthy (js_and a b) = truthy a && truthy b.
Proof.
  intros a b; unfold js_and.
  destruct (truthy a) eqn:Ha; simpl; [reflexivity | exact Ha].
Qed.

(** The [&&] chain of [isValid] is truthy exactly when each operand is. *)
Lemma truthy_isValid : forall st,
  truthy (isValid st) =
    truthy (VString (trim (name st)))
    && truthy (VString (quantity st))
    && num_ge (parseInt (quantity st)) 0
    && truthy (VString (lowThreshold st))
    && num_gt (parseInt (lowThreshold st)) 0.
Proof.
  intro st; unfold isValid. now rewrite !truthy_js_and.
Qed.

(** * The submit button *)

(** C1, as the code has it: the submit button is enabled exactly when
    no submission is in flight, the trimmed name is not empty, the
    quantity is not empty and [parseInt] reads from it an integer of at
    least 0, and the threshold is not empty and [parseInt] reads from it
    an integer above 0; the errors, the touched flags and the
    suggestions play no part. *)
Theorem submit_enabled_iff :
  (forall st,
     submit_enabled st = true <->
     isLoading st = false
     /\ trim (name st) <> []
     /\ (quantity st <> [] /\ exists q, parseInt (quantity st) = Num q /\ (0 <= q)%Z)
     /\ (lowThreshold st <> [] /\ exists t, parseInt (lowThreshold st) = Num t /\ (0 < t)%Z))
  /\ (forall st e t s sh,
        submit_enabled
          (mkState (name st) (quantity st) (lowThreshold st) e t s sh (isLoading st))
        = submit_enabled st).
Proof.
  split.
  - intro st. unfold submit_enabled, submit_disabled, js_not.
    rewrite truthy_isValid, negb_orb, negb_involutive.
    rewrite !andb_true_iff, negb_true_iff, !truthy_string, num_ge_spec, num_gt_spec.
    tauto.
  - intros st e t s sh. reflexivity.
Qed.

(** * Integer strings *)

Lemma isDecimalDigit_cases : forall c,
  isDecimalDigit c = true ->
  In c [48; 49; 50; 51; 52; 53; 54; 55; 56; 57]%N.
Proof.
  intros c H. unfold isDecimalDigit in H.
  apply andb_true_iff in H as [Hlo Hhi].
  apply N.leb_le in Hlo, Hhi. simpl.
  assert (c = 48 \/ c = 49 \/ c = 50 \/ c = 51 \/ c = 52 \/ c = 53 \/ c = 54
          \/ c = 55 \/ c = 56 \/ c = 57)%N as Hc by lia.
  intuition auto.
Qed.

(** A decimal digit is no white space, no sign and no [x], and it is a
    digit of radix 10. *)
Lemma decimal_digit_facts : forall c,
  isDecimalDigit c = true ->
  isStrWhiteSpaceChar c = false
  /\ (c =? 43)%N = false /\ (c =? 45)%N = false
  /\ (c =? 120)%N = false /\ (c =? 88)%N = false
  /\ radixDigit 10 c = Some (Z.of_N (c - 48)).
Proof.
  intros c H. apply isDecimalDigit_cases in H. simpl in H.
  repeat (destruct H as [<- | H]; [repeat split|]). contradiction.
Qed.

Lemma digitPrefix_digits : forall s,
  forallb isDecimalDigit s = true ->
  digitPrefix 10 s = map (fun c => Z.of_N (c - 48)) s.
Proof.
  induction s as [|c s IH]; simpl; intro H; [reflexivity|].
  apply andb_true_iff in H as [Hc Hs].
  destruct (decimal_digit_facts c Hc) as (_ & _ & _ & _ & _ & Hd).
  rewrite Hd. now rewrite IH.
Qed.

Lemma mathInt_digits : forall s acc,
  fold_left (fun a d => a * 10 + d)%Z (map (fun c => Z.of_N (c - 48)) s) acc
  = fold_left (fun a c => a * 10 + Z.of_N (c - 48))%Z s acc.
Proof.
  induction s as [|c s IH]; simpl; intro acc; [reflexivity | apply IH].
Qed.

Lemma decimal_value_nonneg : forall s acc,
  (0 <= acc)%Z ->
  (acc <= fold_left (fun a c => a * 10 + Z.of_N (c - 48))%Z s acc)%Z.
Proof.
  induction s as [|c s IH]; simpl; intros acc Hacc; [lia|].
  etransitivity; [|apply IH]; lia.
Qed.

(** On a string of decimal digits [parseInt] gives the number written. *)
Lemma parseInt_integer_string : forall s,
  nonneg_integer_string s = true ->
  parseInt s = Num (decimal_value s) /\ (0 <= decimal_value s)%Z.
Proof.
  intros s H. unfold nonneg_integer_string in H.
  apply andb_true_iff in H as [Hlen Hall].
  split; [|apply (decimal_value_nonneg s 0%Z); lia].
  destruct s as [|c s]; [discriminate Hlen|].
  pose proof Hall as Hall'. simpl in Hall'.
  apply andb_true_iff in Hall' as [Hc Hs].
  destruct (decimal_digit_facts c Hc) as (Hws & Hplus & Hminus & _ & _ & Hd).
  assert (Hvalue : forall l,
            digitPrefix 10 l = map (fun c => Z.of_N (c - 48)) (c :: s) ->
            match digitPrefix 10 l with
            | [] => NaN
            | ds => Num (1 * mathInt 10 ds)
            end = Num (decimal_value (c :: s))).
  { intros l ->. unfold mathInt, decimal_value. cbn [map fold_left].
    rewrite mathInt_digits. now rewrite Z.mul_1_l. }
  unfold parseInt. simpl trimStart. rewrite Hws, Hplus, Hminus. simpl orb. cbv iota.
  destruct s as [|c1 s].
  - apply Hvalue, (digitPrefix_digits _ Hall).
  - simpl in Hs. apply andb_true_iff in Hs as [Hc1 _].
    destruct (decimal_digit_facts c1 Hc1) as (_ & _ & _ & Hx & HX & _).
    rewrite Hx, HX, andb_false_r.
    apply Hvalue, (digitPrefix_digits _ Hall).
Qed.

(** X14: the direction of the claim as written that holds: while no
    submission is in flight, a name that is not blank, a quantity that
    is a non-negative integer string and a threshold that is a positive
    integer string enable the button. *)
Lemma integer_strings_enable : forall st,
  isLoading st = false ->
  trim (name st) <> [] ->
  nonneg_integer_string (quantity st) = true ->
  positive_integer_string (lowThreshold st) = true ->
  submit_enabled st = true.
Proof.
  intros st Hl Hn Hq Ht.
  unfold positive_integer_string in Ht. apply andb_true_iff in Ht as [Ht Hpos].
  destruct (parseInt_integer_string _ Hq) as [Eq Hq0].
  destruct (parseInt_integer_string _ Ht) as [Et _].
  unfold submit_enabled, submit_disabled, js_not.
  rewrite truthy_isValid, Hl, Eq, Et, orb_false_r, negb_involutive. simpl.
  apply Z.leb_le in Hq0. rewrite Hq0, Hpos, !andb_true_r.
  apply andb_true_iff; split; [apply andb_true_iff; split|].
  - now apply truthy_string.
  - now destruct (quantity st).
  - now destruct (lowThreshold st).
Qed.

(** C1, where the claim as written fails: with Milk, 2 and 1 filled in
    the button is disabled while a submission is in flight; and with the
    quantity 2.5, not an integer string, it is enabled. *)
Lemma submit_enabled_not_integer_strings :
  (submit_enabled milk_loading = false
   /\ trim (name milk_loading) <> []
   /\ nonneg_integer_string (quantity milk_loading) = true
   /\ positive_integer_string (lowThreshold milk_loading) = true)
  /\ (submit_enabled milk_fraction = true
      /\ nonneg_integer_string (quantity milk_fraction) = false).
Proof.
  repeat split; try reflexivity. discriminate.
Qed.

(** * Full validation *)

(** What [validate] computes: the three rules, each on its own field,
    and the error mapping replaced as a whole. *)
Lemma validate_eq : forall render st,
  let bad_name := js_not (VString (trim (name render))) in
  let bad_quantity :=
    js_not (VString (quantity render)) || num_lt (parseInt (quantity render)) 0 in
  let bad_threshold :=
    js_not (VString (lowThreshold render)) || num_le (parseInt (lowThreshold render)) 0 in
  validate render st =
    (negb bad_name && negb bad_quantity && negb bad_threshold,
     mkState (name st) (quantity st) (lowThreshold st)
             (Errors.make (if bad_name then name_required else [])
                          (if bad_quantity then quantity_invalid else [])
                          (if bad_threshold then threshold_invalid else []))
             (touched st) (suggestions st) (showSuggestions st) (isLoading st),
     []).
Proof.
  intros render st bad_name bad_quantity bad_threshold.
  unfold validate. fold bad_name bad_quantity bad_threshold.
  destruct bad_name, bad_quantity, bad_threshold; reflexivity.
Qed.

(** A state that enables the submit button passes full validation. *)
Lemma isValid_validate : forall st st',
  implb (truthy (isValid st)) (value_of (validate st st')) = true.
Proof.
  intros st st'. rewrite validate_eq, truthy_isValid. unfold value_of, js_not; simpl.
  destruct (trim (name st)); simpl; [reflexivity|].
  destruct (quantity st) as [|c0 s0]; simpl; [reflexivity|].
  destruct (lowThreshold st) as [|c1 s1]; simpl; [now rewrite andb_false_r|].
  destruct (parseInt (c0 :: s0)) as [|q]; simpl; [reflexivity|].
  destruct (parseInt (c1 :: s1)) as [|t]; simpl; [now rewrite andb_false_r|].
  destruct (Z.leb_spec 0 q), (Z.ltb_spec 0 t), (Z.ltb_spec q 0), (Z.leb_spec t 0);
    simpl; try reflexivity; lia.
Qed.

(** * Submitting *)

(** C2: with Milk, 2 and 1 filled in and household H1 selected,
    [handleSubmit] calls the creation service once, with
    [{name: "Milk", quantity: 2, lowThreshold: 1, householdId: "H1"}],
    and waits; when that call is fulfilled, the notification
    "Item added successfully" is shown and [onSuccess] is called once,
    and nothing else is called. *)
Theorem submit_milk_H1 : forall e t s sh l st',
  let st := mkState (lit "Milk") (lit "2") (lit "1") e t s sh l in
  let started := run (handleSubmit (Some H1)) st in
  let resumed := handleSubmit_resume Fulfilled st' in
  value_of started = Awaiting
  /\ effects_of started =
       [preventDefault;
        createInventoryItem (Payload.make (lit "Milk") (Num 2) (Num 1) (lit "H1"))]
  /\ created (effects_of started) =
       [Payload.make (lit "Milk") (Num 2) (Num 1) (lit "H1")]
  /\ value_of resumed = Normal
  /\ effects_of resumed = [toast_success (lit "Item added successfully"); onSuccess]
  /\ count_onSuccess (effects_of resumed) = 1
  /\ created (effects_of resumed) = [].
Proof.
  intros; repeat split.
Qed.

(** On any state, offered by the page or not: when full validation
    passes and no household is selected, [handleSubmit] returns without
    calling the creation service, after showing
    "Please select a household first";
    name, quantity, threshold, suggestions and the loading flag are as
    they were, every field is touched, and the error mapping is the
    empty one that validation has just written. *)
Theorem submit_without_household : forall st,
  value_of (run validate st) = true ->
  run (handleSubmit None) st =
    (Returned,
     mkState (name st) (quantity st) (lowThreshold st) no_errors all_touched
             (suggestions st) (showSuggestions st) (isLoading st),
     [preventDefault; toast_error (lit "Please select a household first")])
  /\ created (effects_of (run (handleSubmit None) st)) = [].
Proof.
  intros st Hok.
  assert (E : run (handleSubmit None) st =
    (Returned,
     mkState (name st) (quantity st) (lowThreshold st) no_errors all_touched
             (suggestions st) (showSuggestions st) (isLoading st),
     [preventDefault; toast_error (lit "Please select a household first")])).
  { unfold run, handleSubmit, bind, emit, setTouched.
    unfold run in Hok. rewrite validate_eq in Hok |- *.
    unfold value_of in Hok; simpl in Hok. rewrite Hok. simpl.
    apply andb_true_iff in Hok as [Hok H3]. apply andb_true_iff in Hok as [H1 H2].
    apply negb_true_iff in H1, H2, H3. rewrite H1, H2, H3. reflexivity. }
  split; [exact E | now rewrite E].
Qed.

Lemma submit_without_household_witness :
  value_of (run validate milk) = true
  /\ run (handleSubmit None) milk =
       (Returned,
        mkState (lit "Milk") (lit "2") (lit "1") no_errors all_touched [] false false,
        [preventDefault; toast_error (lit "Please select a household first")]).
Proof.
  split; [reflexivity | apply (submit_without_household milk); reflexivity].
Defined.

(** A call of [handleSubmit] that the page does not offer:
    [stale_quantity] is reached by typing and its submit button is
    disabled; called all the same with no household selected,
    [handleSubmit] passes full validation and replaces the error
    mapping. *)
Lemma submit_without_household_resets_errors :
  option_map form (fire_all asciiLowerCase typing_stale_quantity (mounted None))
    = Some stale_quantity
  /\ value_of (run validate stale_quantity) = true
  /\ Errors.quantity (errors stale_quantity) = quantity_invalid
  /\ Errors.quantity (errors (state_of (run (handleSubmit None) stale_quantity))) = []
  /\ errors (state_of (run (handleSubmit None) stale_quantity)) <> errors stale_quantity.
Proof.
  repeat split; try reflexivity. discriminate.
Qed.

(** The draft fields pass through [handleSubmit] as they are. *)
Lemma handleSubmit_keeps_draft : forall h st,
  let st' := state_of (run (handleSubmit h) st) in
  name st' = name st /\ quantity st' = quantity st /\ lowThreshold st' = lowThreshold st.
Proof.
  intros h st. unfold run, handleSubmit, bind, emit, setTouched.
  rewrite validate_eq. cbv zeta.
  destruct (negb _ && negb _ && negb _); simpl; [|repeat split].
  destruct h; repeat split.
Qed.

(** C4: when the call of the creation service is rejected, the reason
    is logged, "Failed to add item" is shown and nothing else is called;
    [handleSubmit] ends normally, so the reason is not thrown on; the
    state is as it was but for the loading flag, so the draft stays;
    the loading flag is false after the call has settled, whichever way;
    and the first half of [handleSubmit] has not touched the draft
    either. *)
Theorem submit_rejected : forall reason outcome h st,
  handleSubmit_resume (Rejected reason) st =
    (Normal,
     mkState (name st) (quantity st) (lowThreshold st) (errors st) (touched st)
             (suggestions st) (showSuggestions st) false,
     [console_error (lit "APP:: AddItemForm:: Failed to add item:") reason;
      toast_error (lit "Failed to add item")])
  /\ value_of (handleSubmit_resume outcome st) = Normal
  /\ isLoading (state_of (handleSubmit_resume outcome st)) = false
  /\ (name (state_of (run (handleSubmit h) st)) = name st
      /\ quantity (state_of (run (handleSubmit h) st)) = quantity st
      /\ lowThreshold (state_of (run (handleSubmit h) st)) = lowThreshold st).
Proof.
  intros reason outcome h st. split; [reflexivity|].
  split; [now destruct outcome|]. split; [now destruct outcome|].
  apply handleSubmit_keeps_draft.
Qed.

(** C5: when the trimmed name is empty, [handleSubmit] returns at once:
    every field is touched, the name error is "Item name is required."
    and is the paragraph shown under the name field, full validation
    gives false, and the creation service is not called. *)
Theorem submit_empty_name : forall h st,
  trim (name st) = [] ->
  let r := run (handleSubmit h) st in
  value_of r = Returned
  /\ touched (state_of r) = all_touched
  /\ Errors.name (errors (state_of r)) = name_required
  /\ error_paragraph name_field (state_of r) = Some name_required
  /\ value_of (run validate st) = false
  /\ created (effects_of r) = [].
Proof.
  intros h st Hname r. subst r.
  unfold run, handleSubmit, bind, emit, setTouched.
  rewrite !validate_eq. cbv zeta. rewrite Hname. simpl.
  repeat split.
Qed.

Lemma submit_empty_name_witness :
  trim (name blank_name) = []
  /\ touched (state_of (run (handleSubmit (Some H1)) blank_name))
     = all_touched
  /\ error_paragraph name_field
       (state_of (run (handleSubmit (Some H1)) blank_name))
     = Some name_required
  /\ created (effects_of (run (handleSubmit (Some H1)) blank_name))
     = [].
Proof.
  split; [reflexivity|].
  destruct (submit_empty_name (Some H1) blank_name eq_refl)
    as (_ & Ht & _ & Hp & _ & Hc).
  exact (conj Ht (conj Hp Hc)).
Defined.

(** C10: full validation asks less than the submit button.  Whatever
    enables the button passes validation; and a quantity or a threshold
    that is not empty but holds no integer, such as abc, a blank or
    .5, passes validation with no error on any field while the button
    is disabled. *)
Theorem validate_weaker_than_isValid :
  (forall st st', implb (truthy (isValid st)) (value_of (validate st st')) = true)
  /\ Forall (fun st =>
               value_of (run validate st) = true
               /\ errors (state_of (run validate st)) = no_errors
               /\ truthy (isValid st) = false
               /\ submit_enabled st = false)
            [quantity_abc; quantity_blank; threshold_abc; threshold_blank;
             quantity_point_five; threshold_point_five]
  /\ parseInt (quantity quantity_abc) = NaN
  /\ parseInt (quantity quantity_blank) = NaN
  /\ parseInt (lowThreshold threshold_abc) = NaN
  /\ parseInt (lowThreshold threshold_blank) = NaN.
Proof.
  split; [exact isValid_validate|].
  split; [|repeat split].
  repeat constructor.
Qed.

(** * Suggestions *)

(** C6, on the code: on focus with a name that is not empty the
    suggestions are computed again, but [setSuggestions] returns
    [undefined], the [&&] chain stops there and
    [setShowSuggestions(true)] is not reached: a panel that was hidden
    stays hidden. *)
Theorem focus_leaves_panel_hidden : forall toLowerCase st,
  name st <> [] ->
  showSuggestions st = false ->
  run (name_onFocus toLowerCase) st =
    (VUndefined,
     mkState (name st) (quantity st) (lowThreshold st) (errors st) (touched st)
             (matching toLowerCase (name st)) false (isLoading st),
     [])
  /\ suggestion_panel (state_of (run (name_onFocus toLowerCase) st)) = None.
Proof.
  intros toLowerCase st Hname Hshow.
  unfold run, name_onFocus, andM, bind, ret, suggestion_panel, state_of.
  destruct (name st) as [|c s] eqn:E; [now elim Hname|].
  simpl. rewrite E, Hshow. split; reflexivity.
Qed.

Lemma focus_leaves_panel_hidden_witness :
  name Mi_hidden <> []
  /\ showSuggestions Mi_hidden = false
  /\ state_of (run (name_onFocus asciiLowerCase) Mi_hidden) = Mi_hidden
  /\ suggestions Mi_hidden = [lit "Milk"]
  /\ suggestion_panel (state_of (run (name_onFocus asciiLowerCase) Mi_hidden)) = None.
Proof.
  assert (Hname : name Mi_hidden <> []) by discriminate.
  destruct (focus_leaves_panel_hidden asciiLowerCase Mi_hidden Hname eq_refl)
    as [Hrun Hpanel].
  split; [exact Hname|]. split; [reflexivity|].
  split; [now rewrite Hrun|]. split; [reflexivity | exact Hpanel].
Defined.

(** The same from the mount: Mi typed, the field left, the timer fired,
    the field entered again. *)
Example refocus_Mi_hidden :
  option_map
    (fun w => (form w, suggestion_panel (form w)))
    (fire_all asciiLowerCase refocus_Mi (mounted None))
  = Some (Mi_hidden, None).
Proof. reflexivity. Qed.

(** Blur on the name field marks the name touched and sets the timer;
    it does not hide the panel itself. *)
Lemma name_onBlur_eq : forall st,
  run name_onBlur st =
    (VUndefined,
     mkState (name st) (quantity st) (lowThreshold st) (errors st)
             (Touched.with_name true (touched st))
             (suggestions st) (showSuggestions st) (isLoading st),
     [setTimeout hideSuggestions 200]).
Proof. reflexivity. Qed.

(** A click on a suggestion sets the name and hides the panel. *)
Lemma suggestion_onClick_eq : forall item st,
  run (suggestion_onClick item) st =
    (VUndefined,
     mkState item (quantity st) (lowThreshold st) (errors st) (touched st)
             (suggestions st) false (isLoading st),
     []).
Proof. reflexivity. Qed.

(** The two orders of the click and the blur timer: a click that comes
    first sets the name; once the timer has fired the panel is gone and
    there is nothing to click.  Which order occurs is a matter of the
    200 ms against the time of the click. *)
Example click_wins :
  option_map (fun w => (name (form w), showSuggestions (form w)))
    (fire_all asciiLowerCase click_then_timer (mounted None))
  = Some (lit "Milk", false).
Proof. reflexivity. Qed.

Example timer_wins :
  fire_all asciiLowerCase timer_then_click (mounted None) = None.
Proof. reflexivity. Qed.

(** * The form in its page: invariants *)

Ltac break_branches :=
  repeat match goal with
         | |- context [if ?c then _ else _] => destruct c
         | H : context [if ?c then _ else _] |- _ => destruct c
         | H : context [match ?x with Some _ => _ | None => _ end] |- _ => destruct x
         | H : context [match ?x with [] => _ | _ :: _ => _ end] |- _ => destruct x
         | |- context [match ?x with hideSuggestions => _ end] => destruct x
         | H : None = Some _ |- _ => discriminate H
         | H : Some _ = Some _ |- _ => injection H as H; subst
         end.

Ltac run_handlers :=
  cbv beta iota zeta delta
    [fire dispatch run handleNameChange name_onBlur name_onFocus
     suggestion_onClick quantity_onChange quantity_onBlur threshold_onChange
     threshold_onBlur cancel_onClick handleKeyDown timer_fires handleSubmit
     handleSubmit_resume try_catch_finally validate andM bind skip ret emit
     setName setQuantity setLowThreshold setErrors setTouched setSuggestions
     setShowSuggestions setIsLoading suggestion_panel
     form selectedHousehold pending timers log
     name quantity lowThreshold errors touched suggestions showSuggestions isLoading
     Errors.name Errors.quantity Errors.threshold
     Errors.with_name Errors.with_quantity Errors.with_threshold
     Touched.name Touched.quantity Touched.threshold
     Touched.with_name Touched.with_quantity Touched.with_threshold
     touched_of error_of value_of state_of effects_of fst snd] in *.

(** Only a submission and its settling touch the loading flag and the
    pending calls. *)
Lemma fire_keeps_loading : forall toLowerCase e w w',
  fire toLowerCase e w = Some w' ->
  e <> submit -> (forall outcome, e <> settle outcome) ->
  isLoading (form w') = isLoading (form w) /\ pending w' = pending w.
Proof.
  intros toLowerCase e w w' H Hsubmit Hsettle.
  destruct e; try (now elim Hsubmit); try (now elim (Hsettle outcome));
    destruct w as [[n q t [en eqt eth] [tn tq tth] sg sh ld] hh pd tm lg];
    run_handlers; break_branches; run_handlers; simpl; rewrite ?app_nil_r;
    split; reflexivity.
Qed.

Lemma fire_submit_one_in_flight : forall toLowerCase w w',
  fire toLowerCase submit w = Some w' -> one_in_flight w -> one_in_flight w'.
Proof.
  intros toLowerCase w w' H Hinv. cbn in H.
  destruct (submit_enabled (form w)) eqn:Hen; [|discriminate H].
  injection H as <-.
  assert (Hl : isLoading (form w) = false).
  { unfold submit_enabled, submit_disabled in Hen.
    apply negb_true_iff, orb_false_iff in Hen. tauto. }
  destruct Hinv as [[Hl' _] | [_ Hp]]; [congruence|].
  unfold one_in_flight, dispatch, run, handleSubmit, bind, emit, setTouched.
  rewrite validate_eq. cbv zeta.
  destruct (negb _ && negb _ && negb _); cbn; rewrite Hp.
  - destruct (selectedHousehold w); cbn; [left | right]; eauto.
  - right. now rewrite Hl.
Qed.

Lemma fire_settle_one_in_flight : forall toLowerCase outcome w w',
  fire toLowerCase (settle outcome) w = Some w' -> one_in_flight w -> one_in_flight w'.
Proof.
  intros toLowerCase outcome w w' H Hinv. cbn in H.
  destruct Hinv as [[_ [item Hp]] | [_ Hp]]; rewrite Hp in H; [|discriminate H].
  injection H as <-. right. now destruct outcome.
Qed.

Lemma reachable_one_in_flight : forall toLowerCase w,
  reachable toLowerCase w -> one_in_flight w.
Proof.
  intros toLowerCase w H. induction H as [selection | w e w' _ IH Hfire].
  - right. split; reflexivity.
  - destruct e;
      try (destruct (@fire_keeps_loading toLowerCase _ w w' Hfire) as [Hl Hp];
           [discriminate | discriminate
           | unfold one_in_flight; rewrite Hl, Hp; exact IH]).
    + now apply (@fire_submit_one_in_flight toLowerCase w).
    + now apply (@fire_settle_one_in_flight toLowerCase outcome w).
Qed.

Lemma fire_all_reachable : forall toLowerCase es w w',
  reachable toLowerCase w -> fire_all toLowerCase es w = Some w' ->
  reachable toLowerCase w'.
Proof.
  intros toLowerCase es; induction es as [|e es IH]; intros w w' Hw H; simpl in H.
  - now injection H as <-.
  - destruct (fire toLowerCase e w) as [w1|] eqn:E; [|discriminate H].
    eapply IH; [|exact H]. eapply reachable_fire; eauto.
Qed.

(** C8: in every state the page can reach, while the loading flag is
    up the submit button is disabled and the page offers no submit; at
    most one call of the creation service is pending, and whenever one
    is, the loading flag is up. *)
Theorem no_second_submission : forall toLowerCase w,
  reachable toLowerCase w ->
  (isLoading (form w) = true ->
   submit_enabled (form w) = false /\ fire toLowerCase submit w = None)
  /\ (List.length (pending w) <= 1)%nat
  /\ (pending w <> [] -> isLoading (form w) = true).
Proof.
  intros toLowerCase w Hw. split; [|split].
  - intro Hl. assert (Hd : submit_enabled (form w) = false).
    { unfold submit_enabled, submit_disabled. rewrite Hl. now rewrite orb_true_r. }
    split; [exact Hd|]. cbn. now rewrite Hd.
  - destruct (reachable_one_in_flight toLowerCase w Hw) as [[_ [item Hp]] | [_ Hp]];
      rewrite Hp; simpl; lia.
  - intro Hne. destruct (reachable_one_in_flight toLowerCase w Hw) as [[Hl _] | [_ Hp]];
      [exact Hl | now elim Hne].
Qed.

Lemma no_second_submission_witness :
  fire_all asciiLowerCase fill_and_submit (mounted (Some H1)) = Some milk_in_flight
  /\ isLoading (form milk_in_flight) = true
  /\ submit_enabled (form milk_in_flight) = false
  /\ fire asciiLowerCase submit milk_in_flight = None
  /\ (List.length (pending milk_in_flight) <= 1)%nat.
Proof.
  assert (R : reachable asciiLowerCase milk_in_flight).
  { apply fire_all_reachable with (es := fill_and_submit) (w := mounted (Some H1));
      [apply reachable_mounted | reflexivity]. }
  destruct (no_second_submission asciiLowerCase milk_in_flight R) as (Hl & Hp & _).
  destruct (Hl eq_refl) as [Hd Hs].
  repeat split; assumption.
Defined.

(** * Inline errors *)

(** C7: in every state the page can reach and for each of the three
    fields, a paragraph with an error is rendered under the field only
    if the field is touched; its text is then the field's error, which
    is not empty. *)
Theorem error_shown_only_if_touched : forall toLowerCase w f msg,
  reachable toLowerCase w ->
  error_paragraph f (form w) = Some msg ->
  touched_of f (form w) = true /\ msg = error_of f (form w) /\ msg <> [].
Proof.
  intros toLowerCase w f msg _. unfold error_paragraph.
  rewrite truthy_js_and. simpl.
  destruct (error_of f (form w)) as [|c s]; simpl; [discriminate|].
  destruct (touched_of f (form w)); [|discriminate].
  intro H; injection H as <-. repeat split. discriminate.
Qed.

Lemma error_shown_only_if_touched_witness :
  fire_all asciiLowerCase leave_quantity_empty (mounted None) = Some quantity_left_empty
  /\ error_paragraph quantity_field (form quantity_left_empty) = Some quantity_invalid
  /\ touched_of quantity_field (form quantity_left_empty) = true.
Proof.
  assert (R : reachable asciiLowerCase quantity_left_empty).
  { apply fire_all_reachable with (es := leave_quantity_empty) (w := mounted None);
      [apply reachable_mounted | reflexivity]. }
  split; [reflexivity|]. split; [reflexivity|].
  exact (proj1 (@error_shown_only_if_touched asciiLowerCase quantity_left_empty
                  quantity_field quantity_invalid R eq_refl)).
Defined.

(** * The scenarios of the specification *)

Example typing_Mi :
  state_of (run (handleNameChange asciiLowerCase (lit "Mi")) initial)
  = mkState (lit "Mi") [] [] no_errors untouched [lit "Milk"] true false.
Proof. reflexivity. Qed.

Example typing_z :
  suggestion_panel (state_of (run (handleNameChange asciiLowerCase (lit "z")) initial))
  = None.
Proof. reflexivity. Qed.

Example quantity_minus_one :
  option_map (fun w => error_paragraph quantity_field (form w))
    (fire_all asciiLowerCase [quantity_blur; quantity_change (lit "-1")] (mounted None))
  = Some (Some quantity_invalid).
Proof. reflexivity. Qed.

Example quantity_zero :
  option_map (fun w => error_paragraph quantity_field (form w))
    (fire_all asciiLowerCase [quantity_blur; quantity_change (lit "0")] (mounted None))
  = Some None.
Proof. reflexivity. Qed.

Example threshold_zero :
  option_map (fun w => error_paragraph threshold_field (form w))
    (fire_all asciiLowerCase [threshold_blur; threshold_change (lit "0")] (mounted None))
  = Some (Some threshold_invalid).
Proof. reflexivity. Qed.

Example threshold_five :
  option_map (fun w => error_paragraph threshold_field (form w))
    (fire_all asciiLowerCase [threshold_blur; threshold_change (lit "5")] (mounted None))
  = Some None.
Proof. reflexivity. Qed.

Example escape_cancels :
  option_map (fun w => (form w, log w))
    (fire_all asciiLowerCase [key_down (lit "Escape")] (mounted None))
  = Some (initial, [focus_nameInput; onCancel]).
Proof. reflexivity. Qed.

Example milk_added :
  option_map (fun w => (log w, pending w, isLoading (form w)))
    (fire_all asciiLowerCase fill_submit_fulfil (mounted (Some H1)))
  = Some ([focus_nameInput; preventDefault;
           createInventoryItem (Payload.make (lit "Milk") (Num 2) (Num 1) (lit "H1"));
           toast_success (lit "Item added successfully"); onSuccess],
          [], false).
Proof. reflexivity. Qed.

Example parseInt_samples :
  map (fun s => parseInt (lit s))
      ["2"; "-1"; "0"; "abc"; " "; " 42px"; "2.5"; ".5"; "0x1A"; "-0"; "+7"; "0x"; ""]%string
  = [Num 2; Num (-1); Num 0; NaN; NaN; Num 42; Num 2; NaN; Num 26; Num 0; Num 7; NaN; NaN].
Proof. reflexivity. Qed.

(** * White space and substrings *)

Lemma trimStart_nil_iff : forall s,
  trimStart s = [] <-> forallb isStrWhiteSpaceChar s = true.
Proof.
  induction s as [|c s IH]; simpl; [tauto|].
  destruct (isStrWhiteSpaceChar c); simpl; [exact IH | split; discriminate].
Qed.

Lemma trimStart_idempotent : forall s, trimStart (trimStart s) = trimStart s.
Proof.
  induction s as [|c s IH]; simpl; [reflexivity|].
  destruct (isStrWhiteSpaceChar c) eqn:E; [exact IH | simpl; now rewrite E].
Qed.

Lemma forallb_rev : forall (f : code_unit -> bool) s,
  forallb f (rev s) = forallb f s.
Proof.
  intros f s. induction s as [|c s IH]; simpl; [reflexivity|].
  rewrite forallb_app, IH. simpl. rewrite andb_true_r. apply andb_comm.
Qed.

(** [trim] leaves nothing exactly of the strings of white space. *)
Lemma trim_nil_iff : forall s,
  trim s = [] <-> forallb isStrWhiteSpaceChar s = true.
Proof.
  intro s. unfold trim, trimEnd. split.
  - intro H. apply (f_equal (@rev code_unit)) in H. rewrite rev_involutive in H.
    simpl in H. apply trimStart_nil_iff in H. rewrite forallb_rev in H.
    apply trimStart_nil_iff in H. rewrite trimStart_idempotent in H.
    now apply trimStart_nil_iff.
  - intro H. apply trimStart_nil_iff in H. now rewrite H.
Qed.

Lemma startsWith_spec : forall search s,
  startsWith s search = true <-> exists post, s = search ++ post.
Proof.
  induction search as [|d search IH]; intros [|c s]; simpl.
  - split; [exists []; reflexivity | reflexivity].
  - split; [exists (c :: s); reflexivity | reflexivity].
  - split; [discriminate | intros [post H]; discriminate H].
  - rewrite andb_true_iff, N.eqb_eq, IH. split.
    + intros [-> [post ->]]. now exists post.
    + intros [post H]. injection H as -> ->. split; [reflexivity | now exists post].
Qed.

(** [includes] is the search for a substring. *)
Lemma includes_spec : forall s search,
  includes s search = true <-> exists pre post, s = pre ++ search ++ post.
Proof.
  induction s as [|c s IH]; intro search.
  - cbn [includes]. rewrite orb_false_r, startsWith_spec. split.
    + intros [post H]. now exists [], post.
    + intros [pre [post H]]. destruct pre; [now exists post | discriminate H].
  - cbn [includes]. rewrite orb_true_iff, startsWith_spec, IH. split.
    + intros [[post H] | [pre [post H]]].
      * now exists [], post.
      * exists (c :: pre), post. simpl. now rewrite H.
    + intros [[|c' pre] [post H]].
      * left. now exists post.
      * right. injection H as _ H. now exists pre, post.
Qed.

Lemma truthy_trim : forall s,
  truthy (VString (trim s)) = negb (forallb isStrWhiteSpaceChar s).
Proof.
  intro s. destruct (forallb isStrWhiteSpaceChar s) eqn:E.
  - apply trim_nil_iff in E. now rewrite E.
  - destruct (trim s) eqn:T; [|reflexivity].
    apply trim_nil_iff in T. congruence.
Qed.

(** * Field rules *)

(** X1: the name counts as missing exactly when all of its code units
    are white space, the empty name included: that is when full
    validation writes "Item name is required.", and when typing into a
    touched name field does; typing into an untouched one leaves the
    name error as it was. *)
Theorem name_required_iff_blank : forall toLowerCase st st' v,
  Errors.name (errors (state_of (validate st st')))
  = (if forallb isStrWhiteSpaceChar (name st) then name_required else [])
  /\ Errors.name (errors (state_of (run (handleNameChange toLowerCase v) st)))
     = (if Touched.name (touched st)
        then if forallb isStrWhiteSpaceChar v then name_required else []
        else Errors.name (errors st)).
Proof.
  intros toLowerCase st st' v. split.
  - rewrite validate_eq. cbv zeta. unfold js_not.
    rewrite truthy_trim. now destruct (forallb isStrWhiteSpaceChar (name st)).
  - unfold run, handleNameChange, bind, state_of.
    destruct (Touched.name (touched st)).
    + rewrite truthy_trim.
      destruct (0 <? List.length v)%nat; simpl;
        now destruct (forallb isStrWhiteSpaceChar v).
    + destruct (0 <? List.length v)%nat; reflexivity.
Qed.



(** * The form in its page: what events leave alone *)

Ltac fire_cases H e w :=
  destruct w as [[n q t [en eqt eth] [tn tq tth] sg sh ld] hh pd tm lg];
  destruct e as [? | | | ? | ? | | ? | | | | ? | | [|?] | ?];
  run_handlers; break_branches; run_handlers.

Lemma fire_touched : forall toLowerCase e w w' f,
  fire toLowerCase e w = Some w' ->
  touched_of f (form w) = true -> touched_of f (form w') = true.
Proof.
  intros toLowerCase e w w' f H Hf.
  destruct f; fire_cases H e w; congruence.
Qed.

(** X3: a field once touched stays touched, whatever happens to the
    form afterwards. *)
Theorem touched_stays : forall toLowerCase es w w' f,
  fire_all toLowerCase es w = Some w' ->
  touched_of f (form w) = true -> touched_of f (form w') = true.
Proof.
  intros toLowerCase es; induction es as [|e es IH]; intros w w' f H Hf; simpl in H.
  - now injection H as <-.
  - destruct (fire toLowerCase e w) as [w1|] eqn:E; [|discriminate H].
    apply (IH w1 w' f H). now apply (fire_touched toLowerCase e w w1 f).
Qed.

Lemma touched_stays_witness :
  exists w',
    fire_all asciiLowerCase typing_stale_quantity quantity_left_empty = Some w'
    /\ touched_of quantity_field (form quantity_left_empty) = true
    /\ touched_of quantity_field (form w') = true.
Proof.
  eexists. split; [reflexivity|]. split; [reflexivity|].
  apply (touched_stays asciiLowerCase typing_stale_quantity quantity_left_empty _
           quantity_field); reflexivity.
Defined.

(** X4: the three draft fields are written by typing and by a click on
    a suggestion only; a submission, its settling (on success too),
    blur, focus, the timer, cancel and the keys leave them as they
    are. *)
Theorem draft_written_by_typing_only : forall toLowerCase e w w',
  fire toLowerCase e w = Some w' ->
  (name (form w'), quantity (form w'), lowThreshold (form w')) = draft_after e (form w).
Proof.
  intros toLowerCase e w w' H.
  fire_cases H e w; reflexivity.
Qed.

Lemma draft_written_by_typing_only_witness :
  exists w',
    fire asciiLowerCase (settle Fulfilled) milk_in_flight = Some w'
    /\ (name (form w'), quantity (form w'), lowThreshold (form w'))
       = (lit "Milk", lit "2", lit "1").
Proof.
  eexists. split; [reflexivity|].
  exact (draft_written_by_typing_only asciiLowerCase (settle Fulfilled)
           milk_in_flight _ eq_refl).
Defined.

(** * Suggestions: what is offered *)

(** X5: typing a name that is not empty offers exactly the common items
    whose lower-cased text contains the lower-cased input as a
    substring, and shows the panel exactly when there is such an item. *)
Theorem typing_offers_substring_matches : forall toLowerCase v st,
  v <> [] ->
  let st' := state_of (run (handleNameChange toLowerCase v) st) in
  (forall item,
     In item (suggestions st') <->
     In item COMMON_ITEMS
     /\ exists pre post, toLowerCase item = pre ++ toLowerCase v ++ post)
  /\ (showSuggestions st' = true <-> exists item, In item (suggestions st'))
  /\ name st' = v.
Proof.
  intros toLowerCase v st Hv st'.
  assert (E : suggestions st' = matching toLowerCase v
              /\ showSuggestions st' = (0 <? List.length (matching toLowerCase v))%nat
              /\ name st' = v).
  { subst st'. unfold run, handleNameChange, bind, state_of.
    destruct v as [|c v]; [now elim Hv|].
    destruct (Touched.name (touched st)); repeat split. }
  destruct E as (Es & Eshow & En). rewrite Es, Eshow. split; [|split; [|exact En]].
  - intro item. unfold matching. rewrite filter_In, includes_spec. tauto.
  - destruct (matching toLowerCase v) as [|i l]; simpl; split.
    + discriminate.
    + intros [item []].
    + intros _. exists i. now left.
    + reflexivity.
Qed.

Lemma typing_offers_substring_matches_witness :
  lit "iL" <> []
  /\ In (lit "Milk")
       (suggestions (state_of (run (handleNameChange asciiLowerCase (lit "iL")) initial)))
  /\ showSuggestions (state_of (run (handleNameChange asciiLowerCase (lit "iL")) initial))
     = true.
Proof.
  assert (Hv : lit "iL" <> []) by discriminate.
  destruct (typing_offers_substring_matches asciiLowerCase (lit "iL") initial Hv)
    as (Hin & Hshow & _).
  split; [exact Hv|].
  assert (Hmilk : In (lit "Milk")
     (suggestions (state_of (run (handleNameChange asciiLowerCase (lit "iL")) initial)))).
  { apply Hin. split; [now left|]. exists (lit "m"), (lit "k"). reflexivity. }
  split; [exact Hmilk|]. apply Hshow. now exists (lit "Milk").
Defined.

Lemma fire_suggestions : forall toLowerCase e w w',
  fire toLowerCase e w = Some w' ->
  suggestions (form w') = suggestions (form w)
  \/ exists v, suggestions (form w') = matching toLowerCase v.
Proof.
  intros toLowerCase e w w' H.
  fire_cases H e w; try (left; reflexivity); right; eexists; reflexivity.
Qed.

Lemma reachable_suggestions : forall toLowerCase w,
  reachable toLowerCase w ->
  forall item, In item (suggestions (form w)) -> In item COMMON_ITEMS.
Proof.
  intros toLowerCase w H. induction H as [selection | w e w' _ IH Hfire].
  - intros item [].
  - intros item Hin.
    destruct (fire_suggestions toLowerCase e w w' Hfire) as [E | [v E]];
      rewrite E in Hin; [now apply IH|].
    unfold matching in Hin. apply filter_In in Hin. tauto.
Qed.

Lemma common_items_not_blank : forall item,
  In item COMMON_ITEMS -> trim item <> [].
Proof.
  intros item H. simpl in H.
  repeat (destruct H as [<- | H]; [discriminate|]). contradiction.
Qed.

(** X6: whatever has happened to the form, every suggestion it holds is
    one of the ten common items; so a click on a suggestion sets a name
    that is a common item and not blank, and hides the panel. *)
Theorem suggestions_are_common_items : forall toLowerCase w,
  reachable toLowerCase w ->
  (forall item, In item (suggestions (form w)) -> In item COMMON_ITEMS)
  /\ (forall item w',
        fire toLowerCase (suggestion_click item) w = Some w' ->
        name (form w') = item /\ In item COMMON_ITEMS /\ trim item <> []
        /\ suggestion_panel (form w') = None).
Proof.
  intros toLowerCase w Hw.
  pose proof (reachable_suggestions toLowerCase w Hw) as Hsub.
  split; [exact Hsub|].
  intros item w' H. cbn in H.
  destruct (suggestion_panel (form w)) as [items|] eqn:Ep; [|discriminate H].
  destruct (existsb (fun i => if list_eq_dec N.eq_dec i item then true else false) items)
    eqn:Ex; [|discriminate H].
  injection H as <-.
  assert (Hin : In item COMMON_ITEMS).
  { apply Hsub. unfold suggestion_panel in Ep.
    destruct (showSuggestions (form w) && _); [|discriminate Ep].
    injection Ep as <-. apply existsb_exists in Ex as [i [Hi Heq]].
    destruct (list_eq_dec N.eq_dec i item) as [<- | _]; [exact Hi | discriminate Heq]. }
  repeat split; trivial. now apply common_items_not_blank.
Qed.

Lemma suggestions_are_common_items_witness :
  fire asciiLowerCase (suggestion_click (lit "Milk")) Mi_typed = Some Milk_clicked
  /\ name (form Milk_clicked) = lit "Milk"
  /\ In (lit "Milk") COMMON_ITEMS.
Proof.
  assert (R : reachable asciiLowerCase Mi_typed).
  { apply fire_all_reachable with (es := [name_change (lit "Mi")]) (w := mounted None);
      [apply reachable_mounted | reflexivity]. }
  destruct (suggestions_are_common_items asciiLowerCase Mi_typed R) as [_ H].
  destruct (H (lit "Milk") Milk_clicked eq_refl) as (Hn & Hi & _).
  split; [reflexivity|]. exact (conj Hn Hi).
Defined.

(** * Inline errors: what they can say *)

Lemma fire_literal_errors : forall toLowerCase e w w',
  fire toLowerCase e w = Some w' ->
  literal_errors (form w) -> literal_errors (form w').
Proof.
  intros toLowerCase e w w' H Hinv.
  pose proof (Hinv name_field) as Hn.
  pose proof (Hinv quantity_field) as Hq.
  pose proof (Hinv threshold_field) as Ht. clear Hinv.
  fire_cases H e w; intros [| |]; cbv [error_of message_of errors
    Errors.name Errors.quantity Errors.threshold]; auto.
Qed.

(** X7: whatever has happened to the form, a paragraph under a field
    says that field's own message and nothing else: "Item name is
    required." under the name, the quantity message under the quantity,
    the threshold message under the threshold. *)
Theorem error_paragraph_is_field_message : forall toLowerCase w f msg,
  reachable toLowerCase w ->
  error_paragraph f (form w) = Some msg ->
  msg = message_of f.
Proof.
  intros toLowerCase w f msg Hw.
  assert (Hinv : literal_errors (form w)).
  { induction Hw as [selection | w e w' _ IH Hfire].
    - intros [| |]; now left.
    - now apply (fire_literal_errors toLowerCase e w w'). }
  unfold error_paragraph. rewrite truthy_js_and.
  destruct (Hinv f) as [E | E]; rewrite E.
  - discriminate.
  - destruct (truthy (VString (message_of f)) && truthy (VBool (touched_of f (form w))));
      [|discriminate].
    intro H. now injection H as <-.
Qed.

Lemma error_paragraph_is_field_message_witness :
  error_paragraph quantity_field (form quantity_left_empty) = Some quantity_invalid
  /\ quantity_invalid = message_of quantity_field.
Proof.
  split; [reflexivity|].
  apply (error_paragraph_is_field_message asciiLowerCase quantity_left_empty
           quantity_field quantity_invalid); [|reflexivity].
  apply fire_all_reachable with (es := leave_quantity_empty) (w := mounted None);
    [apply reachable_mounted | reflexivity].
Defined.

(** * Submitting from the page *)

Lemma enabled_fields : forall st,
  submit_enabled st = true ->
  isLoading st = false
  /\ trim (name st) <> []
  /\ (exists q, parseInt (quantity st) = Num q /\ (0 <= q)%Z)
  /\ (exists t, parseInt (lowThreshold st) = Num t /\ (0 < t)%Z).
Proof.
  intros st H. unfold submit_enabled, submit_disabled, js_not in H.
  rewrite truthy_isValid, negb_orb, negb_involutive in H.
  rewrite !andb_true_iff, negb_true_iff, !truthy_string, num_ge_spec, num_gt_spec in H.
  tauto.
Qed.

Lemma enabled_passes : forall st st',
  submit_enabled st = true -> value_of (validate st st') = true.
Proof.
  intros st st' H. pose proof (isValid_validate st st') as Himp.
  unfold submit_enabled, submit_disabled in H.
  apply negb_true_iff, orb_false_iff in H as [H _].
  unfold js_not in H. apply negb_false_iff in H. now rewrite H in Himp.
Qed.

(** [handleSubmit] on a state that passes full validation, with a
    household selected. *)
Lemma handleSubmit_selected : forall household st,
  value_of (run validate st) = true ->
  run (handleSubmit (Some household)) st =
    (Awaiting,
     mkState (name st) (quantity st) (lowThreshold st) no_errors all_touched
             (suggestions st) (showSuggestions st) true,
     [preventDefault;
      createInventoryItem
        (Payload.make (name st) (parseInt (quantity st)) (parseInt (lowThreshold st))
                      (key household))]).
Proof.
  intros household st Hok.
  unfold run, handleSubmit, bind, emit, setTouched.
  unfold run in Hok. rewrite validate_eq in Hok |- *.
  unfold value_of in Hok; simpl in Hok. rewrite Hok. simpl.
  apply andb_true_iff in Hok as [Hok H3]. apply andb_true_iff in Hok as [H1 H2].
  apply negb_true_iff in H1, H2, H3. rewrite H1, H2, H3. reflexivity.
Qed.

Lemma handleSubmit_created : forall selection st,
  submit_enabled st = true ->
  forall item, In item (created (effects_of (run (handleSubmit selection) st))) ->
  well_formed_item item.
Proof.
  intros selection st Hen item Hin.
  destruct (enabled_fields st Hen) as (_ & Hn & Hq & Ht).
  pose proof (enabled_passes st st Hen) as Hok.
  destruct selection as [household|].
  - rewrite (handleSubmit_selected household st Hok) in Hin.
    destruct Hin as [<- | []]. repeat split; assumption.
  - unfold run, handleSubmit, bind, emit, setTouched in Hin.
    unfold value_of in Hok. rewrite validate_eq in Hin, Hok. simpl in Hok, Hin.
    rewrite Hok in Hin. destruct Hin.
Qed.

Lemma fire_log : forall toLowerCase e w w',
  fire toLowerCase e w = Some w' ->
  exists l, log w' = log w ++ l
            /\ forall item, In item (created l) -> well_formed_item item.
Proof.
  intros toLowerCase e w w' H.
  destruct e as [? | | | ? | ? | | ? | | | | ? | | [|?] | ?].
  9: { cbn in H. destruct (submit_enabled (form w)) eqn:Hen; [|discriminate H].
       injection H as <-. unfold dispatch.
       pose proof (handleSubmit_created (selectedHousehold w) (form w) Hen) as Hc.
       destruct (run (handleSubmit (selectedHousehold w)) (form w)) as [[r st] l].
       exists l. split; [reflexivity | exact Hc]. }
  all: destruct w as [[n q t [en eqt eth] [tn tq tth] sg sh ld] hh pd tm lg];
    run_handlers; break_branches; run_handlers;
    first [ eexists; split; [reflexivity | simpl; now intros ? []]
          | exists []; split; [symmetry; apply app_nil_r | simpl; now intros ? []] ].
Qed.

Lemma created_app : forall l1 l2, created (l1 ++ l2) = created l1 ++ created l2.
Proof. intros l1 l2. unfold created. apply flat_map_app. Qed.

(** X8: whatever happens on the page, every item ever handed to the
    creation service has a name that is not blank, a quantity that is a
    number of at least 0 and a threshold that is a number above 0:
    neither [NaN] nor a negative quantity leaves the page. *)
Theorem items_sent_are_well_formed : forall toLowerCase w item,
  reachable toLowerCase w ->
  In item (created (log w)) ->
  well_formed_item item.
Proof.
  intros toLowerCase w item Hw. revert item.
  induction Hw as [selection | w e w' _ IH Hfire]; intros item Hin.
  - destruct Hin.
  - destruct (fire_log toLowerCase e w w' Hfire) as (l & El & Hl).
    rewrite El, created_app in Hin. apply in_app_or in Hin as [Hin | Hin].
    + now apply IH.
    + now apply Hl.
Qed.

Lemma items_sent_are_well_formed_witness :
  created (log milk_in_flight)
  = [Payload.make (lit "Milk") (Num 2) (Num 1) (lit "H1")]
  /\ well_formed_item (Payload.make (lit "Milk") (Num 2) (Num 1) (lit "H1")).
Proof.
  split; [reflexivity|].
  apply (items_sent_are_well_formed asciiLowerCase milk_in_flight).
  - apply fire_all_reachable with (es := fill_and_submit) (w := mounted (Some H1));
      [apply reachable_mounted | reflexivity].
  - now left.
Defined.

(** X9: from a page that offers submit, with a household selected, a
    submission and its settling bring the form back with the same
    draft, no error, every field touched, the loading flag down and the
    button enabled again, so that a rejected submission can be tried
    again; exactly one item was sent, made of the name as typed and of
    what [parseInt] reads in the two other fields. *)
Theorem submit_then_settle : forall toLowerCase w household outcome,
  reachable toLowerCase w ->
  submit_enabled (form w) = true ->
  selectedHousehold w = Some household ->
  exists w',
    fire_all toLowerCase [submit; settle outcome] w = Some w'
    /\ form w' =
         mkState (name (form w)) (quantity (form w)) (lowThreshold (form w))
                 no_errors all_touched
                 (suggestions (form w)) (showSuggestions (form w)) false
    /\ submit_enabled (form w') = true
    /\ pending w' = []
    /\ log w' =
         log w
         ++ [preventDefault;
             createInventoryItem
               (Payload.make (name (form w)) (parseInt (quantity (form w)))
                             (parseInt (lowThreshold (form w))) (key household))]
         ++ match outcome with
            | Fulfilled => [toast_success (lit "Item added successfully"); onSuccess]
            | Rejected reason =>
                [console_error (lit "APP:: AddItemForm:: Failed to add item:") reason;
                 toast_error (lit "Failed to add item")]
            end.
Proof.
  intros toLowerCase w household outcome Hw Hen Hh.
  destruct (enabled_fields (form w) Hen) as (Hl & _).
  assert (Hp : pending w = []).
  { destruct (reachable_one_in_flight toLowerCase w Hw) as [[Hl' _] | [_ Hp]];
      [congruence | exact Hp]. }
  pose proof (handleSubmit_selected household (form w)
                (enabled_passes (form w) (form w) Hen)) as Hrun.
  assert (Es : dispatch (handleSubmit (Some household)) w =
    mkWorld
      (mkState (name (form w)) (quantity (form w)) (lowThreshold (form w))
               no_errors all_touched
               (suggestions (form w)) (showSuggestions (form w)) true)
      (Some household)
      [Payload.make (name (form w)) (parseInt (quantity (form w)))
                    (parseInt (lowThreshold (form w))) (key household)]
      (timers w)
      (log w
       ++ [preventDefault;
           createInventoryItem
             (Payload.make (name (form w)) (parseInt (quantity (form w)))
                           (parseInt (lowThreshold (form w))) (key household))])).
  { unfold dispatch. rewrite Hrun, Hp, Hh. simpl. now rewrite app_nil_r. }
  cbn [fire_all fire]. rewrite Hen, Hh, Es. cbn [pending].
  eexists. split; [reflexivity|].
  unfold submit_enabled, submit_disabled in Hen |- *.
  apply negb_true_iff, orb_false_iff in Hen as [Hv _].
  destruct outcome; cbn -[isValid]; rewrite <- app_assoc;
    (repeat split; trivial);
    unfold isValid in Hv |- *; cbn [name quantity lowThreshold isLoading] in Hv |- *;
    now rewrite Hv.
Qed.

Lemma submit_then_settle_witness :
  exists w',
    fire_all asciiLowerCase [submit; settle (Rejected (Error (lit "offline")))]
             milk_typed = Some w'
    /\ submit_enabled (form milk_typed) = true
    /\ submit_enabled (form w') = true
    /\ pending w' = [].
Proof.
  assert (R : reachable asciiLowerCase milk_typed).
  { apply fire_all_reachable with (es := type_milk) (w := mounted (Some H1));
      [apply reachable_mounted | reflexivity]. }
  destruct (submit_then_settle asciiLowerCase milk_typed H1
              (Rejected (Error (lit "offline"))) R eq_refl eq_refl)
    as (w' & Hfire & _ & Hen & Hp & _).
  exists w'. repeat split; assumption.
Defined.

(** * Cancelling *)

(** X10: at any time, also while a submission is in flight, the Escape
    key and the Cancel button call [onCancel] once and do nothing else:
    no field, error or flag changes, nothing is validated, no item is
    sent; any other key does nothing at all. *)
Theorem cancel_calls_onCancel_only : forall toLowerCase w,
  fire toLowerCase (key_down (lit "Escape")) w
  = Some (mkWorld (form w) (selectedHousehold w) (pending w) (timers w)
                  (log w ++ [onCancel]))
  /\ fire toLowerCase cancel_click w
     = Some (mkWorld (form w) (selectedHousehold w) (pending w) (timers w)
                     (log w ++ [onCancel]))
  /\ (forall e_key, e_key <> lit "Escape" ->
      fire toLowerCase (key_down e_key) w = Some w).
Proof.
  intros toLowerCase [st hh pd tm lg]. split; [|split].
  - cbn. now rewrite !app_nil_r.
  - cbn. now rewrite !app_nil_r.
  - intros e_key Hkey. unfold fire, dispatch, run, handleKeyDown.
    destruct (list_eq_dec N.eq_dec e_key (lit "Escape")) as [E | _]; [now elim Hkey|].
    cbn. now rewrite !app_nil_r.
Qed.

Lemma cancel_calls_onCancel_only_witness :
  lit "Enter" <> lit "Escape"
  /\ fire asciiLowerCase (key_down (lit "Enter")) milk_in_flight = Some milk_in_flight
  /\ option_map (fun w => (form w, pending w, created (log w)))
       (fire asciiLowerCase (key_down (lit "Escape")) milk_in_flight)
     = Some (form milk_in_flight, pending milk_in_flight,
             created (log milk_in_flight)).
Proof.
  assert (Hkey : lit "Enter" <> lit "Escape") by discriminate.
  destruct (cancel_calls_onCancel_only asciiLowerCase milk_in_flight) as (He & _ & Hk).
  split; [exact Hkey|]. split; [exact (Hk (lit "Enter") Hkey)|].
  rewrite He. reflexivity.
Defined.

(** * Errors against the submit button *)

Ltac break_branches_eqn :=
  repeat match goal with
         | |- context [if ?c then _ else _] => destruct c eqn:?
         | H : context [if ?c then _ else _] |- _ => destruct c eqn:?
         | H : context [match ?x with Some _ => _ | None => _ end] |- _ => destruct x eqn:?
         | H : context [match ?x with [] => _ | _ :: _ => _ end] |- _ => destruct x eqn:?
         | |- context [match ?x with hideSuggestions => _ end] => destruct x
         | H : None = Some _ |- _ => discriminate H
         | H : Some _ = Some _ |- _ => injection H as H; subst
         end.

Lemma bad_quantity_fails : forall q,
  js_not (VString q) || num_lt (parseInt q) 0 = true ->
  truthy (VString q &&& VBool (num_ge (parseInt q) 0))%js = false.
Proof.
  intros q H. rewrite truthy_js_and. unfold js_not in H.
  destruct (truthy (VString q)); simpl in *; [|reflexivity].
  destruct (parseInt q) as [|z]; simpl in *; [reflexivity|].
  apply Z.ltb_lt in H. apply Z.leb_gt. lia.
Qed.

Lemma bad_threshold_fails : forall t,
  js_not (VString t) || num_le (parseInt t) 0 = true ->
  truthy (VString t &&& VBool (num_gt (parseInt t) 0))%js = false.
Proof.
  intros t H. rewrite truthy_js_and. unfold js_not in H.
  destruct (truthy (VString t)); simpl in *; [|reflexivity].
  destruct (parseInt t) as [|z]; simpl in *; [reflexivity|].
  apply Z.leb_le in H. apply Z.ltb_ge. lia.
Qed.

Lemma fire_numeric_errors_sound : forall toLowerCase e w w',
  fire toLowerCase e w = Some w' ->
  numeric_errors_sound (form w) -> numeric_errors_sound (form w').
Proof.
  intros toLowerCase e w w' H Hinv.
  destruct w as [[n q t [en eqt eth] [tn tq tth] sg sh ld] hh pd tm lg];
  destruct e as [? | | | ? | ? | | ? | | | | ? | | [|?] | ?];
  unfold numeric_errors_sound in *;
  run_handlers; break_branches_eqn; run_handlers;
  destruct Hinv as (A & B & C & D);
  repeat split; intros;
  try congruence; try (now apply A); try (now apply B);
  try (now apply C); try (now apply D);
  try (now apply bad_quantity_fails); try (now apply bad_threshold_fails);
  try (exfalso; auto; fail).
Qed.

Lemma reachable_numeric_errors_sound : forall toLowerCase w,
  reachable toLowerCase w -> numeric_errors_sound (form w).
Proof.
  intros toLowerCase w H. induction H as [selection | w e w' _ IH Hfire].
  - repeat split; intros; try reflexivity; now elim H.
  - now apply (fire_numeric_errors_sound toLowerCase e w w').
Qed.

(** X11: whatever has happened on the page, while the submit button is
    enabled neither the quantity nor the threshold carries an error:
    an error on one of them means the field is touched and its text
    fails the button's own test. *)
Theorem enabled_page_has_no_numeric_error : forall toLowerCase w,
  reachable toLowerCase w ->
  submit_enabled (form w) = true ->
  Errors.quantity (errors (form w)) = []
  /\ Errors.threshold (errors (form w)) = [].
Proof.
  intros toLowerCase w Hw Hen.
  destruct (reachable_numeric_errors_sound toLowerCase w Hw) as (_ & B & _ & D).
  unfold submit_enabled, submit_disabled, js_not in Hen.
  rewrite truthy_isValid, negb_orb, negb_involutive in Hen.
  rewrite !andb_true_iff in Hen. destruct Hen as [[[[[_ Hq] Hq'] Ht] Ht'] _].
  rewrite truthy_js_and in B, D. rewrite Hq in B. rewrite Ht in D.
  simpl in B, D. rewrite Hq' in B. rewrite Ht' in D.
  split.
  - destruct (Errors.quantity (errors (form w))); [reflexivity|].
    assert (F : true = false) by (apply B; discriminate). discriminate F.
  - destruct (Errors.threshold (errors (form w))); [reflexivity|].
    assert (F : true = false) by (apply D; discriminate). discriminate F.
Qed.

Lemma enabled_page_has_no_numeric_error_witness :
  submit_enabled (form milk_typed) = true
  /\ Errors.quantity (errors (form milk_typed)) = []
  /\ Errors.threshold (errors (form milk_typed)) = [].
Proof.
  split; [reflexivity|].
  apply (enabled_page_has_no_numeric_error asciiLowerCase milk_typed); [|reflexivity].
  apply fire_all_reachable with (es := type_milk) (w := mounted (Some H1));
    [apply reachable_mounted | reflexivity].
Defined.

Lemma not_truthy_string : forall s, truthy (VString s) = false -> s = [].
Proof. intros [|c s] H; [reflexivity | discriminate H]. Qed.

Lemma enabled_name : forall st,
  submit_enabled st = true -> js_not (VString (trim (name st))) = false.
Proof.
  intros st H. destruct (enabled_fields st H) as (_ & Hn & _).
  unfold js_not. apply negb_false_iff. now apply truthy_string.
Qed.

Section BlankNames.

Variable toLowerCase : jsstring -> jsstring.

(** No common item matches a blank input: white space has no other
    case, and no item contains any. *)
Hypothesis blank_matches_nothing :
  forall v, v <> [] -> trim v = [] -> matching toLowerCase v = [].

Lemma fire_name_error_sound : forall e w w',
  fire toLowerCase e w = Some w' ->
  name_error_sound (form w) -> name_error_sound (form w').
Proof.
  intros e w w' H Hinv.
  destruct w as [[n q t [en eqt eth] [tn tq tth] sg sh ld] hh pd tm lg];
  destruct e as [? | | | ? | ? | | ? | | | | ? | | [|?] | ?];
  unfold name_error_sound in *;
  run_handlers; break_branches_eqn; run_handlers;
  destruct Hinv as (A & B);
  (split; [intros; try congruence; try (now apply A) |]);
  intros;
  try congruence;
  try (now apply B);
  try (exfalso; auto; fail);
  try match goal with
      | H : ?x <> [], B : ?x <> [] -> _ /\ _ |- _ => destruct (B H) as [? ?]; clear B
      end;
  try discriminate; try (split; [assumption | reflexivity]);
  try match goal with
      | Hen : submit_enabled _ = true, Hbad : js_not (VString (trim _)) = true |- _ =>
          apply enabled_name in Hen; cbn [name] in Hen; congruence
      end;
  try match goal with
      | Hv : (0 <? List.length ?v)%nat = true,
        Ht : truthy (VString (trim ?v)) = false,
        Hm : context [matching toLowerCase ?v] |- _ =>
          rewrite (blank_matches_nothing v) in Hm;
          [discriminate Hm
          | intro E; rewrite E in Hv; discriminate Hv
          | now apply not_truthy_string]
      | Hv : truthy (VString ?v) = true,
        Ht : trim ?v = [],
        Hm : context [matching toLowerCase ?v] |- _ =>
          rewrite (blank_matches_nothing v) in Hm;
          [rewrite andb_false_r in Hm; discriminate Hm
          | intro E; rewrite E in Hv; discriminate Hv
          | exact Ht]
      end;
  try (split; [now apply not_truthy_string | reflexivity]).
Qed.

Lemma reachable_name_error_sound : forall w,
  reachable toLowerCase w -> name_error_sound (form w).
Proof.
  intros w H. induction H as [selection | w e w' _ IH Hfire].
  - split; intros; [reflexivity | now elim H].
  - now apply (fire_name_error_sound e w w').
Qed.

(** X12: whatever has happened on the page, while the submit button is
    enabled the error mapping is empty; so a submission that the page
    offers while no household is selected changes nothing of the form
    but the touched flags: it shows "Please select a household first"
    and sends no item. *)
Theorem offered_submit_finds_no_error : forall w,
  reachable toLowerCase w ->
  submit_enabled (form w) = true ->
  errors (form w) = no_errors
  /\ (selectedHousehold w = None ->
      fire toLowerCase submit w =
        Some (mkWorld
                (mkState (name (form w)) (quantity (form w)) (lowThreshold (form w))
                         (errors (form w)) all_touched
                         (suggestions (form w)) (showSuggestions (form w))
                         (isLoading (form w)))
                None (pending w) (timers w)
                (log w ++ [preventDefault;
                           toast_error (lit "Please select a household first")]))).
Proof.
  intros w Hw Hen.
  assert (He : errors (form w) = no_errors).
  { destruct (reachable_numeric_errors_sound toLowerCase w Hw) as (_ & Bq & _ & Bt).
    destruct (reachable_name_error_sound w Hw) as (_ & Bn).
    destruct (enabled_fields (form w) Hen) as (_ & Hn & _).
    pose proof Hen as Hen'.
    unfold submit_enabled, submit_disabled, js_not in Hen'.
    rewrite truthy_isValid, negb_orb, negb_involutive in Hen'.
    rewrite !andb_true_iff in Hen'. destruct Hen' as [[[[[_ Hq] Hq'] Ht] Ht'] _].
    rewrite truthy_js_and in Bq, Bt. rewrite Hq in Bq. rewrite Ht in Bt.
    simpl in Bq, Bt. rewrite Hq' in Bq. rewrite Ht' in Bt.
    destruct (errors (form w)) as [en eqt eth]. simpl in *.
    destruct en as [|c en]; [|destruct Bn as [Bn _]; [discriminate | now elim Hn]].
    destruct eqt as [|c eqt];
      [|assert (F : true = false) by (apply Bq; discriminate); discriminate F].
    destruct eth as [|c eth];
      [|assert (F : true = false) by (apply Bt; discriminate); discriminate F].
    reflexivity. }
  split; [exact He|]. intro Hh.
  cbn [fire]. rewrite Hen, Hh. unfold dispatch, run, handleSubmit, bind, emit, setTouched.
  pose proof (enabled_passes (form w) (form w) Hen) as Hok.
  unfold value_of in Hok. rewrite validate_eq in Hok |- *. simpl in Hok. rewrite Hok.
  apply andb_true_iff in Hok as [Hok H3]. apply andb_true_iff in Hok as [H1 H2].
  apply negb_true_iff in H1, H2, H3. rewrite H1, H2, H3. simpl.
  rewrite He, ?Hh, !app_nil_r. reflexivity.
Qed.

End BlankNames.

(** [asciiLowerCase] is such a [toLowerCase]. *)

Lemma white_space_not_upper : forall c,
  isStrWhiteSpaceChar c = true -> ((65 <=? c) && (c <=? 90))%N = false.
Proof.
  intros c H. destruct ((65 <=? c) && (c <=? 90))%N eqn:E; [|reflexivity].
  apply andb_true_iff in E as [Hlo Hhi]. apply N.leb_le in Hlo, Hhi.
  unfold isStrWhiteSpaceChar, isWhiteSpace, isLineTerminator in H.
  repeat rewrite (proj2 (N.eqb_neq c _)) in H by lia.
  rewrite (proj2 (N.leb_gt _ c)) in H by lia.
  discriminate H.
Qed.

Lemma includes_head : forall s c search,
  includes s (c :: search) = true -> In c s.
Proof.
  intros s c search H. apply includes_spec in H as (pre & post & ->).
  apply in_or_app. right. now left.
Qed.

Lemma common_items_have_no_white_space : forall item c,
  In item COMMON_ITEMS -> In c (asciiLowerCase item) -> isStrWhiteSpaceChar c = false.
Proof.
  intros item c Hitem Hc.
  assert (H : forallb (fun c => negb (isStrWhiteSpaceChar c)) (asciiLowerCase item) = true).
  { simpl in Hitem. repeat (destruct Hitem as [<- | Hitem]; [reflexivity|]).
    contradiction. }
  rewrite forallb_forall in H. apply H in Hc. now apply negb_true_iff.
Qed.

Lemma filter_none : forall (f : jsstring -> bool) l,
  (forall x, In x l -> f x = false) -> filter f l = [].
Proof.
  intros f l. induction l as [|x l IH]; intro H; [reflexivity|].
  cbn [filter]. rewrite (H x (or_introl eq_refl)). apply IH.
  intros y Hy. apply H. now right.
Qed.

Lemma asciiLowerCase_blank : forall v,
  v <> [] -> trim v = [] -> matching asciiLowerCase v = [].
Proof.
  intros [|c v] Hv Ht; [now elim Hv|].
  apply trim_nil_iff in Ht. simpl in Ht. apply andb_true_iff in Ht as [Hc _].
  unfold matching.
  assert (Hnone : forall item, In item COMMON_ITEMS ->
            includes (asciiLowerCase item) (asciiLowerCase (c :: v)) = false).
  { intros item Hitem. unfold asciiLowerCase at 2. cbn [map].
    rewrite (white_space_not_upper c Hc).
    destruct (includes (asciiLowerCase item) _) eqn:E; [|reflexivity].
    apply includes_head in E.
    rewrite (common_items_have_no_white_space item c Hitem E) in Hc. discriminate Hc. }
  apply filter_none. exact Hnone.
Qed.

Lemma offered_submit_finds_no_error_witness :
  submit_enabled (form milk_typed_alone) = true
  /\ selectedHousehold milk_typed_alone = None
  /\ errors (form milk_typed_alone) = no_errors
  /\ option_map (fun w => (errors (form w), pending w, created (log w)))
       (fire asciiLowerCase submit milk_typed_alone)
     = Some (no_errors, [], []).
Proof.
  assert (R : reachable asciiLowerCase milk_typed_alone).
  { apply fire_all_reachable with (es := type_milk) (w := mounted None);
      [apply reachable_mounted | reflexivity]. }
  destruct (offered_submit_finds_no_error asciiLowerCase asciiLowerCase_blank
              milk_typed_alone R eq_refl) as [He Hs].
  split; [reflexivity|]. split; [reflexivity|]. split; [exact He|].
  rewrite (Hs eq_refl). reflexivity.
Defined.

(** * Mounting and unmounting *)

Lemma lifecycle_apply_tidy : forall c p p',
  Lifecycle.apply c p = Some p' -> Lifecycle.tidy p ->
  Lifecycle.tidy p'
  /\ Lifecycle.latest (option_map Lifecycle.calls (Lifecycle.cleanup p)) [c]
     = option_map Lifecycle.calls (Lifecycle.cleanup p')
  /\ Lifecycle.focus_calls p'
     = (Lifecycle.mounts [c] + Lifecycle.focus_calls p)%nat.
Proof.
  intros c [ls cl fr fc] p' H Ht. unfold Lifecycle.tidy in *. simpl in Ht.
  destruct c as [cb | cb |], cl as [l|]; simpl in H; try discriminate H.
  - injection H as <-. subst ls. repeat split.
  - destruct (Nat.eqb_spec (Lifecycle.calls l) cb) as [E | _]; injection H as <-.
    + subst ls. simpl. now rewrite E.
    + subst ls. simpl. rewrite Nat.eqb_refl. repeat split.
  - injection H as <-. subst ls. simpl. rewrite Nat.eqb_refl. repeat split.
Qed.

(** X13: over any life of the component (mounts, renders with the same
    or another [onCancel], unmounts), window holds exactly one keydown
    listener while the component is mounted and none once it is
    unmounted; an Escape key press calls the [onCancel] of the last
    render, once, and never an earlier one; and the name input is
    focused once per mount, not on later renders. *)
Theorem lifecycle_one_listener : forall cs p,
  Lifecycle.apply_all cs Lifecycle.start = Some p ->
  Lifecycle.escape p
  = match Lifecycle.latest None cs with Some cancel => [cancel] | None => [] end
  /\ List.length (Lifecycle.listeners p)
     = match Lifecycle.latest None cs with Some _ => 1%nat | None => 0%nat end
  /\ Lifecycle.focus_calls p = Lifecycle.mounts cs.
Proof.
  assert (G : forall cs p p',
    Lifecycle.apply_all cs p = Some p' -> Lifecycle.tidy p ->
    Lifecycle.tidy p'
    /\ Lifecycle.latest (option_map Lifecycle.calls (Lifecycle.cleanup p)) cs
       = option_map Lifecycle.calls (Lifecycle.cleanup p')
    /\ Lifecycle.focus_calls p'
       = (Lifecycle.mounts cs + Lifecycle.focus_calls p)%nat).
  { induction cs as [|c cs IH]; intros p p' H Ht; simpl in H.
    - injection H as <-. repeat split; trivial.
    - destruct (Lifecycle.apply c p) as [p1|] eqn:E; [|discriminate H].
      destruct (lifecycle_apply_tidy c p p1 E Ht) as (Ht1 & Hl1 & Hf1).
      destruct (IH p1 p' H Ht1) as (Ht' & Hl' & Hf').
      split; [exact Ht'|]. split.
      + rewrite <- Hl', <- Hl1. now destruct c.
      + rewrite Hf', Hf1. unfold Lifecycle.mounts. destruct c; simpl; lia. }
  intros cs p H.
  destruct (G cs Lifecycle.start p H eq_refl) as (Ht & Hl & Hf).
  simpl in Hl. rewrite Hl. unfold Lifecycle.escape. rewrite Ht.
  rewrite Hf, Nat.add_0_r. now destruct (Lifecycle.cleanup p).
Qed.

Lemma lifecycle_one_listener_witness :
  exists p,
    Lifecycle.apply_all
      [Lifecycle.mount 1; Lifecycle.rerender 1; Lifecycle.rerender 2;
       Lifecycle.unmount; Lifecycle.mount 3]
      Lifecycle.start = Some p
    /\ Lifecycle.escape p = [3]
    /\ Lifecycle.focus_calls p = 2%nat.
Proof.
  eexists. split; [reflexivity|].
  refine ((fun H => conj (proj1 H) (proj2 (proj2 H))) _).
  exact (lifecycle_one_listener
           [Lifecycle.mount 1; Lifecycle.rerender 1; Lifecycle.rerender 2;
            Lifecycle.unmount; Lifecycle.mount 3] _ eq_refl).
Defined.

(** * What a submission sends *)

Lemma integer_strings_enable_witness :
  isLoading milk = false
  /\ trim (name milk) <> []
  /\ nonneg_integer_string (quantity milk) = true
  /\ positive_integer_string (lowThreshold milk) = true
  /\ submit_enabled milk = true.
Proof.
  assert (Hn : trim (name milk) <> []) by discriminate.
  split; [reflexivity|]. split; [exact Hn|].
  split; [reflexivity|]. split; [reflexivity|].
  exact (integer_strings_enable milk eq_refl Hn eq_refl eq_refl).
Defined.

Lemma not_blank_passes : forall s, s <> [] -> js_not (VString s) = false.
Proof.
  intros s H. unfold js_not. apply negb_false_iff. now apply truthy_string.
Qed.

(** X15: when the quantity and the threshold are written in decimal
    digits, the threshold above zero, neither beyond 2^53 (where
    integers are binary64 values as they are), and the name is not
    blank, a submission with a household selected sends one item: the
    name as it was typed, not trimmed, the two integers that the digits
    spell, and the key of the household. *)
Theorem item_carries_what_was_typed : forall household st,
  trim (name st) <> [] ->
  nonneg_integer_string (quantity st) = true ->
  positive_integer_string (lowThreshold st) = true ->
  (decimal_value (quantity st) <= exact_integers)%Z ->
  (decimal_value (lowThreshold st) <= exact_integers)%Z ->
  run (handleSubmit (Some household)) st =
    (Awaiting,
     mkState (name st) (quantity st) (lowThreshold st) no_errors all_touched
             (suggestions st) (showSuggestions st) true,
     [preventDefault;
      createInventoryItem
        (Payload.make (name st)
                      (Num (decimal_value (quantity st)))
                      (Num (decimal_value (lowThreshold st)))
                      (key household))]).
Proof.
  intros household st Hn Hq Ht _ _.
  unfold positive_integer_string in Ht. apply andb_true_iff in Ht as [Ht Hpos].
  apply Z.ltb_lt in Hpos.
  destruct (parseInt_integer_string _ Hq) as [Eq Hq0].
  destruct (parseInt_integer_string _ Ht) as [Et _].
  rewrite <- Eq, <- Et. apply handleSubmit_selected.
  unfold run, value_of. rewrite validate_eq. simpl.
  rewrite (not_blank_passes _ Hn), Eq, Et. simpl.
  assert (Hqn : quantity st <> []) by (intro E; rewrite E in Hq; discriminate Hq).
  assert (Htn : lowThreshold st <> []) by (intro E; rewrite E in Ht; discriminate Ht).
  rewrite (not_blank_passes _ Hqn), (not_blank_passes _ Htn). simpl.
  destruct (Z.ltb_spec (decimal_value (quantity st)) 0); [lia|].
  destruct (Z.leb_spec (decimal_value (lowThreshold st)) 0); [lia|]. reflexivity.
Qed.

Lemma item_carries_what_was_typed_witness :
  trim (name padded_milk) <> []
  /\ nonneg_integer_string (quantity padded_milk) = true
  /\ positive_integer_string (lowThreshold padded_milk) = true
  /\ (decimal_value (quantity padded_milk) <= exact_integers)%Z
  /\ (decimal_value (lowThreshold padded_milk) <= exact_integers)%Z
  /\ created (effects_of (run (handleSubmit (Some H1)) padded_milk))
     = [Payload.make (lit " Milk ") (Num 12) (Num 3) (lit "H1")].
Proof.
  assert (Hn : trim (name padded_milk) <> []) by discriminate.
  assert (Hq : (decimal_value (quantity padded_milk) <= exact_integers)%Z)
    by (apply Z.leb_le; reflexivity).
  assert (Ht : (decimal_value (lowThreshold padded_milk) <= exact_integers)%Z)
    by (apply Z.leb_le; reflexivity).
  split; [exact Hn|]. split; [reflexivity|]. split; [reflexivity|].
  split; [exact Hq|]. split; [exact Ht|].
  now rewrite (item_carries_what_was_typed H1 padded_milk Hn eq_refl eq_refl Hq Ht).
Defined.

(** X16: [handleSubmit] itself does not keep [NaN] from the creation
    service: called on a state whose quantity is not empty but holds no
    number, the rest being valid, it passes validation and sends an
    item whose quantity is [NaN]; only the disabled submit button stands
    in the way of such a call. *)
Theorem direct_submit_sends_NaN : forall household st,
  trim (name st) <> [] ->
  quantity st <> [] ->
  parseInt (quantity st) = NaN ->
  lowThreshold st <> [] ->
  num_gt (parseInt (lowThreshold st)) 0 = true ->
  submit_enabled st = false
  /\ effects_of (run (handleSubmit (Some household)) st) =
       [preventDefault;
        createInventoryItem
          (Payload.make (name st) NaN (parseInt (lowThreshold st)) (key household))].
Proof.
  intros household st Hn Hq Hnan Ht Hpos. split.
  - unfold submit_enabled, submit_disabled, js_not.
    rewrite truthy_isValid, Hnan. simpl. now rewrite !andb_false_r.
  - rewrite <- Hnan. rewrite handleSubmit_selected; [reflexivity|].
    unfold run, value_of. rewrite validate_eq. simpl.
    rewrite (not_blank_passes _ Hn), (not_blank_passes _ Hq), (not_blank_passes _ Ht).
    rewrite Hnan. simpl.
    destruct (parseInt (lowThreshold st)) as [|t]; [discriminate Hpos|].
    simpl in *. apply Z.ltb_lt in Hpos.
    destruct (Z.leb_spec t 0); [lia | reflexivity].
Qed.

Lemma direct_submit_sends_NaN_witness :
  parseInt (quantity quantity_point_five) = NaN
  /\ submit_enabled quantity_point_five = false
  /\ created (effects_of (run (handleSubmit (Some H1)) quantity_point_five))
     = [Payload.make (lit "Milk") NaN (Num 1) (lit "H1")].
Proof.
  assert (Hn : trim (name quantity_point_five) <> []) by discriminate.
  assert (Hq : quantity quantity_point_five <> []) by discriminate.
  assert (Ht : lowThreshold quantity_point_five <> []) by discriminate.
  destruct (direct_submit_sends_NaN H1 quantity_point_five Hn Hq eq_refl Ht eq_refl)
    as [Hd He].
  split; [reflexivity|]. split; [exact Hd|]. now rewrite He.
Defined.

(** * A submission with no household selected *)

(** While the page offers submit, the error mapping is empty. *)
Lemma enabled_errors_empty : forall toLowerCase,
  (forall v, v <> [] -> trim v = [] -> matching toLowerCase v = []) ->
  forall w,
  reachable toLowerCase w ->
  submit_enabled (form w) = true ->
  errors (form w) = no_errors.
Proof.
  intros toLowerCase Hblank w Hw Hen.
  destruct (reachable_numeric_errors_sound toLowerCase w Hw) as (_ & Bq & _ & Bt).
  destruct (reachable_name_error_sound toLowerCase Hblank w Hw) as (_ & Bn).
  destruct (enabled_fields (form w) Hen) as (_ & Hn & _).
  unfold submit_enabled, submit_disabled, js_not in Hen.
  rewrite truthy_isValid, negb_orb, negb_involutive in Hen.
  rewrite !andb_true_iff in Hen. destruct Hen as [[[[[_ Hq] Hq'] Ht] Ht'] _].
  rewrite truthy_js_and in Bq, Bt. rewrite Hq in Bq. rewrite Ht in Bt.
  simpl in Bq, Bt. rewrite Hq' in Bq. rewrite Ht' in Bt.
  destruct (errors (form w)) as [en eqt eth]. simpl in *.
  destruct en as [|c en]; [|destruct Bn as [Bn _]; [discriminate | now elim Hn]].
  destruct eqt as [|c eqt];
    [|assert (F : true = false) by (apply Bq; discriminate); discriminate F].
  destruct eth as [|c eth];
    [|assert (F : true = false) by (apply Bt; discriminate); discriminate F].
  reflexivity.
Qed.

(** C3: on every submission that the page offers, when the three
    fields pass full validation and no household is selected, the
    creation service is not called, "Please select a household first"
    is shown, and name, quantity, threshold, the error mapping and the
    loading flag are left as they were, as are the suggestions; only
    the touched flags are set, and [onSuccess] is not called, so the
    form stays open.  The page is any state reached from the mount;
    [toLowerCase] is taken to match no common item against a blank
    input, as the one of JavaScript does. *)
Theorem offered_submit_without_household : forall toLowerCase,
  (forall v, v <> [] -> trim v = [] -> matching toLowerCase v = []) ->
  forall w w',
  reachable toLowerCase w ->
  fire toLowerCase submit w = Some w' ->
  value_of (run validate (form w)) = true ->
  selectedHousehold w = None ->
  log w' = log w ++ [preventDefault; toast_error (lit "Please select a household first")]
  /\ created (log w') = created (log w)
  /\ pending w' = pending w
  /\ count_onSuccess (log w') = count_onSuccess (log w)
  /\ name (form w') = name (form w)
  /\ quantity (form w') = quantity (form w)
  /\ lowThreshold (form w') = lowThreshold (form w)
  /\ errors (form w') = errors (form w)
  /\ isLoading (form w') = isLoading (form w)
  /\ suggestions (form w') = suggestions (form w)
  /\ showSuggestions (form w') = showSuggestions (form w)
  /\ touched (form w') = all_touched.
Proof.
  intros toLowerCase Hblank w w' Hw Hfire Hok Hh.
  cbn [fire] in Hfire.
  destruct (submit_enabled (form w)) eqn:Hen; [|discriminate Hfire].
  injection Hfire as <-.
  pose proof (enabled_errors_empty toLowerCase Hblank w Hw Hen) as He.
  assert (Hrun : run (handleSubmit (selectedHousehold w)) (form w) =
    (Returned,
     mkState (name (form w)) (quantity (form w)) (lowThreshold (form w))
             no_errors all_touched
             (suggestions (form w)) (showSuggestions (form w)) (isLoading (form w)),
     [preventDefault; toast_error (lit "Please select a household first")])).
  { rewrite Hh. unfold run, handleSubmit, bind, emit, setTouched.
    unfold run in Hok. rewrite validate_eq in Hok |- *.
    unfold value_of in Hok; simpl in Hok. rewrite Hok. simpl.
    apply andb_true_iff in Hok as [Hok H3]. apply andb_true_iff in Hok as [H1 H2].
    apply negb_true_iff in H1, H2, H3. rewrite H1, H2, H3. reflexivity. }
  unfold dispatch. rewrite Hrun. cbn [form log pending name quantity lowThreshold
    errors isLoading suggestions showSuggestions touched].
  rewrite He. unfold count_onSuccess, created.
  rewrite filter_app, flat_map_app, length_app. simpl. rewrite !app_nil_r, Nat.add_0_r.
  repeat split.
Qed.

Lemma offered_submit_without_household_witness :
  fire asciiLowerCase submit milk_typed_alone = Some milk_alone_submitted
  /\ value_of (run validate (form milk_typed_alone)) = true
  /\ selectedHousehold milk_typed_alone = None
  /\ created (log milk_alone_submitted) = []
  /\ errors (form milk_alone_submitted) = errors (form milk_typed_alone)
  /\ isLoading (form milk_alone_submitted) = isLoading (form milk_typed_alone).
Proof.
  assert (R : reachable asciiLowerCase milk_typed_alone).
  { apply fire_all_reachable with (es := type_milk) (w := mounted None);
      [apply reachable_mounted | reflexivity]. }
  destruct (offered_submit_without_household asciiLowerCase asciiLowerCase_blank
              milk_typed_alone milk_alone_submitted R eq_refl eq_refl eq_refl)
    as (_ & Hc & _ & _ & _ & _ & _ & He & Hl & _).
  split; [reflexivity|]. split; [reflexivity|]. split; [reflexivity|].
  split; [exact Hc|]. split; [exact He | exact Hl].
Defined.

(** * Blur, the click on a suggestion and the timer *)



